(** * zktraffic: the reply decoder of [zktraffic/base/server_message.py]

    A shallow embedding of the opcode registry ([ServerMessageType]), of the
    reply classes and of [ServerMessage.from_payload], followed by the
    properties of the decoder.

    Conventions.
    - A Python exception is a value of [exn]; a call that may raise returns
      [result A = exn + A].
    - The dict [requests_xids] is shared with the caller and mutated in
      place: every function that touches it returns the table it leaves.
    - The registry [ServerMessageType.TYPES] is a class-level dict; it is an
      explicit argument of the functions that read it.
    - The readers of [zktraffic/base/util.py] and the constants of
      [zktraffic/base/zookeeper.py] are imported by the module but are not
      part of it: the decoder is parametric in them ([Readers],
      [zookeeper]); [Util_readers] and [ZK] give one concrete instance each. *)

From Stdlib Require Import ZArith Strings.Byte DecimalString.
From stdpp Require Import gmap strings list.

Local Open Scope Z_scope.

(** ** Exceptions *)

Inductive exn_class :=
  | DeserializationError
  | StringTooLong
  | ValueError
  | AttributeError.

Record exn := Raise { exn_cls : exn_class; exn_msg : string }.

Definition result (A : Type) : Type := exn + A.

Definition result_bind {A B} (r : result A) (k : A → result B) : result B :=
  match r with
  | inl e => inl e
  | inr a => k a
  end.

Notation "'let*' p ':=' e 'in' k" :=
  (result_bind e (fun p => k))
  (at level 10, p pattern, e at level 100, k at level 200,
   format "'[v' 'let*'  p  ':='  e  'in' '/' k ']'").

#[global] Instance exn_class_eq_dec : EqDecision exn_class.
Proof. solve_decision. Defined.

(** [except StringTooLong]: does the handler catch [e]? *)
Definition is_StringTooLong (e : exn) : bool :=
  bool_decide (exn_cls e = StringTooLong).

(** [try: <body> except StringTooLong: <handler>], read on the values the
    assigned locals hold after the statement: those of the body when it
    completes, those the handler leaves when it catches, and the exception
    itself when it is of another class. *)
Definition try_except_StringTooLong {A} (body : result A) (handler : A) : result A :=
  match body with
  | inr a => inr a
  | inl e => if is_StringTooLong e then inr handler else inl e
  end.

(** ["%d" % n] and ["%s" % n] on an int. *)
Definition string_of_Z (n : Z) : string := NilZero.string_of_int (Z.to_int n).

(** ["%s" % v] where [v] is an int or [None]. *)
Definition string_of_opcode (o : option Z) : string :=
  match o with
  | None => "None"
  | Some n => string_of_Z n
  end.

(** ** What the module imports *)

(** The readers imported from [.util]: each takes the buffer and an offset
    and returns the value read and the offset after it, or raises. *)
Record Readers := {
  read_number : list byte → Z → result (Z * Z);
  read_string : list byte → Z → result (string * Z);
  read_buffer : list byte → Z → result (list byte * Z);
  read_bool : list byte → Z → result (bool * Z);
  read_int_int : list byte → Z → result ((Z * Z) * Z);
  read_int_int_long : list byte → Z → result ((Z * Z * Z) * Z);
  read_int_bool_int : list byte → Z → result ((Z * bool * Z) * Z);
  read_reply_header : list byte → Z → result ((Z * Z * Z) * Z);
}.

(** Modelled from the spec: [INT_STRUCT], imported from
    [zktraffic/base/util.py], is missing from the sources; it is the layout
    of the "4-byte signed length prefix", so [INT_STRUCT.size] is 4. *)
Definition INT_STRUCT_size : Z := 4.

(** The constants imported from [.zookeeper]: the two reserved transaction
    ids and the opcodes the reply classes declare. *)
Record zookeeper := {
  WATCH_XID : Z;
  PING_XID : Z;
  OpCodes_CONNECT : Z;
  OpCodes_PING : Z;
  OpCodes_SETAUTH : Z;
  OpCodes_GETDATA : Z;
  OpCodes_EXISTS : Z;
  OpCodes_SYNC : Z;
  OpCodes_SETDATA : Z;
  OpCodes_DELETE : Z;
  OpCodes_GETCHILDREN : Z;
  OpCodes_GETCHILDREN2 : Z;
  OpCodes_CREATE : Z;
  OpCodes_CREATE2 : Z;
  OpCodes_SETWATCHES : Z;
  OpCodes_MULTI : Z;
}.

(** [MultiHeader(type, done, err)] of [.zookeeper]. *)
Record MultiHeader := { mh_type : Z; mh_done : bool; mh_err : Z }.

(** ** Classes and messages *)

(** The classes the module creates, in the order it creates them. *)
Inductive cls :=
  | ClientMessageType
  | ServerMessage
  | WatchEvent
  | Reply
  | ConnectReply
  | PingReply
  | AuthReply
  | GetDataReply
  | ExistsReply
  | SyncReply
  | SetDataReply
  | DeleteReply
  | GetChildrenReply
  | GetChildren2Reply
  | CreateReply
  | Create2Reply
  | SetWatchesReply
  | MultiReply.

#[global] Instance cls_eq_dec : EqDecision cls.
Proof. solve_decision. Defined.

(** [cls.__name__] *)
Definition cls_name (c : cls) : string :=
  match c with
  | ClientMessageType => "ClientMessageType"
  | ServerMessage => "ServerMessage"
  | WatchEvent => "WatchEvent"
  | Reply => "Reply"
  | ConnectReply => "ConnectReply"
  | PingReply => "PingReply"
  | AuthReply => "AuthReply"
  | GetDataReply => "GetDataReply"
  | ExistsReply => "ExistsReply"
  | SyncReply => "SyncReply"
  | SetDataReply => "SetDataReply"
  | DeleteReply => "DeleteReply"
  | GetChildrenReply => "GetChildrenReply"
  | GetChildren2Reply => "GetChildren2Reply"
  | CreateReply => "CreateReply"
  | Create2Reply => "Create2Reply"
  | SetWatchesReply => "SetWatchesReply"
  | MultiReply => "MultiReply"
  end.

(** The attributes a subclass adds in its [__init__]. *)
Inductive attrs :=
  | NoAttrs
  | WatchEventAttrs (event_type state : Z)
  | ConnectReplyAttrs (protocol timeout session : Z) (passwd : list byte) (readonly : bool)
  | GetChildrenReplyAttrs (count : Z)
  | MultiReplyAttrs (headers : list MultiHeader).

(** An instance: its class, the slots of [ServerMessage] and the
    attributes of its subclass. *)
Record message := {
  __class__ : cls;
  timestamp : Z;
  xid : Z;
  zxid : Z;
  error : Z;
  path : string;
  client : string;
  auth : string;
  server : string;
  extra : attrs;
}.

(** [ServerMessage.__init__], on an instance of class [c] whose subclass
    attributes [a] are already set. *)
Definition ServerMessage_init (c : cls) (a : attrs)
    (xid zxid error : Z) (path client server : string) : message :=
  {| __class__ := c;
     timestamp := 0;
     auth := "";
     xid := xid;
     zxid := zxid;
     error := error;
     path := path;
     client := client;
     server := server;
     extra := a |}.

(** [WatchEvent.__init__] *)
Definition WatchEvent_init (c : cls) (event_type state : Z)
    (path client server : string) : message :=
  ServerMessage_init c (WatchEventAttrs event_type state) (-1) (-1) 0 path client server.

(** [ConnectReply.__init__] *)
Definition ConnectReply_init (c : cls) (protocol timeout session : Z)
    (passwd : list byte) (readonly : bool) (client server : string) : message :=
  ServerMessage_init c (ConnectReplyAttrs protocol timeout session passwd readonly)
    0 (-1) 0 "" client server.

(** [GetChildrenReply.__init__] *)
Definition GetChildrenReply_init (c : cls) (xid zxid error count : Z)
    (client server : string) : message :=
  ServerMessage_init c (GetChildrenReplyAttrs count) xid zxid error "" client server.

(** [MultiReply.__init__] *)
Definition MultiReply_init (c : cls) (xid zxid error : Z) (client : string)
    (first_header : MultiHeader) (server : string) : message :=
  ServerMessage_init c (MultiReplyAttrs [first_header]) xid zxid error "" client server.

(** Attribute reads; [None] where the instance has no such attribute. *)
Definition timeout_of (m : message) : option Z :=
  match extra m with
  | ConnectReplyAttrs _ timeout _ _ _ => Some timeout
  | _ => None
  end.

Definition event_type_of (m : message) : option Z :=
  match extra m with
  | WatchEventAttrs event_type _ => Some event_type
  | _ => None
  end.

Definition count_of (m : message) : option Z :=
  match extra m with
  | GetChildrenReplyAttrs count => Some count
  | _ => None
  end.

(** ** The opcode registry: metaclass [ServerMessageType] *)

(** [ServerMessageType.__new__], on the class object [obj] it has just
    built and the value [opcode] of [obj.OPCODE] ([None] when neither the
    class nor a base sets it: the metaclass attribute is then found).
    [TYPES] is the registry before the call; the registry after is
    returned with the class. *)
Definition ServerMessageType_new (TYPES : gmap (option Z) cls)
    (obj : cls) (opcode : option Z) : result (cls * gmap (option Z) cls) :=
  if decide (is_Some (TYPES !! opcode)) then
    inl (Raise ValueError ("Duplicate class/opcode name: " +:+ string_of_opcode opcode))
  else
    match opcode with
    | Some _ => inr (obj, <[opcode := obj]> TYPES)
    | None => inr (obj, TYPES)
    end.

(** [ServerMessageType.get(key, default=None)] *)
Definition ServerMessageType_get (TYPES : gmap (option Z) cls)
    (key : option Z) : option cls :=
  TYPES !! key.

(** A run of class statements, each handled by the metaclass; the first
    one that raises aborts the run. *)
Fixpoint declare_classes (decls : list (cls * option Z))
    (TYPES : gmap (option Z) cls) : result (gmap (option Z) cls) :=
  match decls with
  | [] => inr TYPES
  | (obj, opcode) :: rest =>
      let* (_, TYPES') := ServerMessageType_new TYPES obj opcode in
      declare_classes rest TYPES'
  end.

Section Decoder.

Context (R : Readers) (K : zookeeper).

(** [c.OPCODE] as the class statement of [c] leaves it. *)
Definition OPCODE (c : cls) : option Z :=
  match c with
  | ClientMessageType | ServerMessage | WatchEvent | Reply => None
  | ConnectReply => Some (OpCodes_CONNECT K)
  | PingReply => Some (OpCodes_PING K)
  | AuthReply => Some (OpCodes_SETAUTH K)
  | GetDataReply => Some (OpCodes_GETDATA K)
  | ExistsReply => Some (OpCodes_EXISTS K)
  | SyncReply => Some (OpCodes_SYNC K)
  | SetDataReply => Some (OpCodes_SETDATA K)
  | DeleteReply => Some (OpCodes_DELETE K)
  | GetChildrenReply => Some (OpCodes_GETCHILDREN K)
  | GetChildren2Reply => Some (OpCodes_GETCHILDREN2 K)
  | CreateReply => Some (OpCodes_CREATE K)
  | Create2Reply => Some (OpCodes_CREATE2 K)
  | SetWatchesReply => Some (OpCodes_SETWATCHES K)
  | MultiReply => Some (OpCodes_MULTI K)
  end.

(** The class statements of the module, top to bottom. *)
Definition module_classes : list cls :=
  [ ClientMessageType; ServerMessage; WatchEvent; Reply; ConnectReply;
    PingReply; AuthReply; GetDataReply; ExistsReply; SyncReply;
    SetDataReply; DeleteReply; GetChildrenReply; GetChildren2Reply;
    CreateReply; Create2Reply; SetWatchesReply; MultiReply ].

(** Each class with the [OPCODE] the metaclass finds on it. *)
Definition module_declarations : list (cls * option Z) :=
  (λ c, (c, OPCODE c)) <$> module_classes.

(** Importing the module: [TYPES] starts empty. *)
Definition import_module : result (gmap (option Z) cls) :=
  declare_classes module_declarations ∅.

(** ** [with_params], class by class *)

(** [ServerMessage.with_params] *)
Definition ServerMessage_with_params (c : cls) (xid zxid error : Z)
    (data : list byte) (offset : Z) (client server : string) : result message :=
  inr (ServerMessage_init c NoAttrs xid zxid error "" client server).

(** [WatchEvent.with_params], up to its [return]: the locals
    [event_type], [state], [path] and [offset]. *)
Definition WatchEvent_with_params_locals (data : list byte) (offset : Z)
    : result (Z * Z * string * Z) :=
  let* ((event_type, state), offset) := read_int_int R data offset in
  let* (path, offset) :=
    try_except_StringTooLong (read_string R data offset) ("path-too-long", offset) in
  inr (event_type, state, path, offset).

(** [WatchEvent.with_params] *)
Definition WatchEvent_with_params (c : cls) (xid zxid error : Z)
    (data : list byte) (offset : Z) (client server : string) : result message :=
  let* (event_type, state, path, _) := WatchEvent_with_params_locals data offset in
  inr (WatchEvent_init c event_type state path client server).

(** [ConnectReply.with_params] *)
Definition ConnectReply_with_params (c : cls) (xid zxid error : Z)
    (data : list byte) (offset : Z) (client server : string) : result message :=
  let offset := INT_STRUCT_size in
  let* ((protocol, timeout, session), offset) := read_int_int_long R data offset in
  let* (passwd, offset) := read_buffer R data offset in
  let* (readonly, offset) := read_bool R data offset in
  inr (ConnectReply_init c protocol timeout session passwd readonly client server).

(** [GetChildrenReply.with_params] *)
Definition GetChildrenReply_with_params (c : cls) (xid zxid error : Z)
    (data : list byte) (offset : Z) (client server : string) : result message :=
  let* (count, _) := (if decide (error = 0) then read_number R data offset else inr (0, 0)) in
  inr (GetChildrenReply_init c xid zxid error count client server).

(** [CreateReply.with_params], up to its [return]: the locals [path]
    and [offset]. *)
Definition CreateReply_with_params_locals (error : Z) (data : list byte) (offset : Z)
    : result (string * Z) :=
  try_except_StringTooLong
    (if decide (error = 0) then read_string R data offset else inr (""%string, offset))
    ("path-too-long"%string, offset).

(** [CreateReply.with_params] *)
Definition CreateReply_with_params (c : cls) (xid zxid error : Z)
    (data : list byte) (offset : Z) (client server : string) : result message :=
  let* (path, _) := CreateReply_with_params_locals error data offset in
  inr (ServerMessage_init c NoAttrs xid zxid error path client server).

(** [MultiReply.with_params] *)
Definition MultiReply_with_params (c : cls) (xid zxid error : Z)
    (data : list byte) (offset : Z) (client server : string) : result message :=
  let* ((first_opcode, done, err), _) := read_int_bool_int R data offset in
  inr (MultiReply_init c xid zxid error client
         {| mh_type := first_opcode; mh_done := done; mh_err := err |} server).

(** [handler.with_params(...)]: the method the class [handler] resolves
    to. [ClientMessageType] derives from [object] alone and has none. *)
Definition with_params (handler : cls) (xid zxid error : Z)
    (data : list byte) (offset : Z) (client server : string) : result message :=
  match handler with
  | ClientMessageType =>
      inl (Raise AttributeError
             "type object 'ClientMessageType' has no attribute 'with_params'")
  | WatchEvent => WatchEvent_with_params handler xid zxid error data offset client server
  | ConnectReply => ConnectReply_with_params handler xid zxid error data offset client server
  | GetChildrenReply | GetChildren2Reply =>
      GetChildrenReply_with_params handler xid zxid error data offset client server
  | CreateReply | Create2Reply =>
      CreateReply_with_params handler xid zxid error data offset client server
  | MultiReply => MultiReply_with_params handler xid zxid error data offset client server
  | ServerMessage | Reply | PingReply | AuthReply | GetDataReply | ExistsReply
  | SyncReply | SetDataReply | DeleteReply | SetWatchesReply =>
      ServerMessage_with_params handler xid zxid error data offset client server
  end.

(** ** Handler resolution and the decoder *)

(** [ServerMessage.handler_for]: the handler, and [requests_xids] as
    the call leaves it ([pop] removes the entry it returns). *)
Definition ServerMessage_handler_for (TYPES : gmap (option Z) cls)
    (xid : Z) (requests_xids : gmap Z Z) : option cls * gmap Z Z :=
  if decide (xid = WATCH_XID K) then (Some WatchEvent, requests_xids)
  else if decide (xid = PING_XID K) then (Some PingReply, requests_xids)
  else
    let request_type := requests_xids !! xid in
    let requests_xids := delete xid requests_xids in
    (ServerMessageType_get TYPES request_type, requests_xids).

(** [ServerMessage.from_payload]: the message or the exception, and
    [requests_xids] as the call leaves it. *)
Definition ServerMessage_from_payload (TYPES : gmap (option Z) cls)
    (data : list byte) (client server : string) (requests_xids : gmap Z Z)
    : result message * gmap Z Z :=
  match read_number R data 0 with
  | inl e => (inl e, requests_xids)
  | inr (reply_size, offset) =>
      if decide (reply_size ≤ 0) then
        (inl (Raise DeserializationError
                ("Bad reply length: " +:+ string_of_Z reply_size)), requests_xids)
      else
        match read_reply_header R data offset with
        | inl e => (inl e, requests_xids)
        | inr ((xid, zxid, err), offset) =>
            match ServerMessage_handler_for TYPES xid requests_xids with
            | (Some handler, requests_xids) =>
                (with_params handler xid zxid err data offset client server,
                 requests_xids)
            | (None, requests_xids) =>
                (inl (Raise DeserializationError
                        ("No handler for xid=" +:+ string_of_Z xid)), requests_xids)
            end
        end
  end.

(** ** Display names *)

(** [ServerMessage.name] *)
Definition ServerMessage_name (m : message) : string :=
  (if decide (error m = 0) then "" else "Failed") +:+ cls_name (__class__ m).

(** [WatchEvent.EVENT_TYPES[event_type]]: the five entries of the
    [defaultdict] and its default (which the dict also stores under a key
    it is asked for and does not have; lookups return the same after). *)
Definition EVENT_TYPES (event_type : Z) : string :=
  if decide (event_type = -1) then "None"
  else if decide (event_type = 1) then "NodeCreated"
  else if decide (event_type = 2) then "NodeDeleted"
  else if decide (event_type = 3) then "NodeDataChanged"
  else if decide (event_type = 4) then "NodeChildrenChanged"
  else "UnknownWatchEvent".

(** [WatchEvent.name] *)
Definition WatchEvent_name (m : message) : result string :=
  match event_type_of m with
  | Some event_type => inr (EVENT_TYPES event_type)
  | None => inl (Raise AttributeError "event_type")
  end.

(** [ConnectReply.name] *)
Definition ConnectReply_name (m : message) : result string :=
  match timeout_of m with
  | Some timeout =>
      inr (if decide (timeout > 0) then ServerMessage_name m else "SessionExpiration")
  | None => inl (Raise AttributeError "timeout")
  end.

(** [m.name]: the property the class of [m] resolves to. *)
Definition name (m : message) : result string :=
  match __class__ m with
  | ClientMessageType => inl (Raise AttributeError "name")
  | WatchEvent => WatchEvent_name m
  | ConnectReply => ConnectReply_name m
  | _ => inr (ServerMessage_name m)
  end.

(** [m.opcode]: [self.OPCODE], found on the class of [m]. *)
Definition opcode (m : message) : option Z := OPCODE (__class__ m).

End Decoder.

(** ** One instance of the imports *)

(** Modelled from the spec: the readers of [zktraffic/base/util.py], which
    is missing from the sources. The spec asks for "fixed-width integer/long
    readers, a length-prefixed string reader with a configurable
    maximum-length bound, a length-prefixed opaque-buffer reader, a boolean
    reader -- each taking (buffer, offset) and returning (value,
    new_offset), failing distinctly on out-of-bounds or malformed
    encodings". Integers are in network byte order and signed, as on the
    ZooKeeper wire; the reply header is transaction id (32 bits), server
    transaction id (64 bits), error code (32 bits). The messages of the
    exceptions are this model's. *)
Module Util.

(** [data[offset:offset+n]] when the buffer holds all [n] bytes. *)
Definition slice (data : list byte) (offset n : Z) : option (list byte) :=
  if decide (0 ≤ offset ∧ 0 ≤ n ∧ offset + n ≤ Z.of_nat (length data)) then
    Some (take (Z.to_nat n) (drop (Z.to_nat offset) data))
  else None.

Definition be_unsigned (bs : list byte) : Z :=
  fold_left (λ acc b, acc * 256 + Z.of_N (Byte.to_N b)) bs 0.

Definition be_signed (bs : list byte) : Z :=
  let u := be_unsigned bs in
  let w := 8 * Z.of_nat (length bs) in
  if decide (u < 2 ^ (w - 1)) then u else u - 2 ^ w.

Definition out_of_bounds {A} (what : string) : result A :=
  inl (Raise DeserializationError ("Couldn't read " +:+ what)).

(** A signed big-endian integer of [n] bytes. *)
Definition read_signed (what : string) (n : Z) (data : list byte) (offset : Z)
    : result (Z * Z) :=
  match slice data offset n with
  | Some bs => inr (be_signed bs, offset + n)
  | None => out_of_bounds what
  end.

Definition read_number := read_signed "number" INT_STRUCT_size.
Definition read_long := read_signed "long" 8.

Definition read_bool (data : list byte) (offset : Z) : result (bool * Z) :=
  match slice data offset 1 with
  | Some bs => inr (bool_decide (be_unsigned bs ≠ 0), offset + 1)
  | None => out_of_bounds "bool"
  end.

Definition read_int_int (data : list byte) (offset : Z) : result ((Z * Z) * Z) :=
  let* (a, offset) := read_number data offset in
  let* (b, offset) := read_number data offset in
  inr ((a, b), offset).

Definition read_int_int_long (data : list byte) (offset : Z)
    : result ((Z * Z * Z) * Z) :=
  let* (a, offset) := read_number data offset in
  let* (b, offset) := read_number data offset in
  let* (c, offset) := read_long data offset in
  inr ((a, b, c), offset).

Definition read_int_bool_int (data : list byte) (offset : Z)
    : result ((Z * bool * Z) * Z) :=
  let* (a, offset) := read_number data offset in
  let* (b, offset) := read_bool data offset in
  let* (c, offset) := read_number data offset in
  inr ((a, b, c), offset).

Definition read_reply_header (data : list byte) (offset : Z)
    : result ((Z * Z * Z) * Z) :=
  let* (xid, offset) := read_number data offset in
  let* (zxid, offset) := read_long data offset in
  let* (err, offset) := read_number data offset in
  inr ((xid, zxid, err), offset).

(** The length is checked against the bound before the bytes are looked
    at; the exception carries a message and nothing else. *)
Definition read_string (maxlen : Z) (data : list byte) (offset : Z)
    : result (string * Z) :=
  let* (length, offset) := read_number data offset in
  if decide (length > maxlen) then
    inl (Raise StringTooLong ("Length is " +:+ string_of_Z length))
  else
    match slice data offset length with
    | Some bs => inr (String.string_of_list_byte bs, offset + length)
    | None => out_of_bounds "string"
    end.

Definition read_buffer (data : list byte) (offset : Z) : result (list byte * Z) :=
  let* (length, offset) := read_number data offset in
  match slice data offset length with
  | Some bs => inr (bs, offset + length)
  | None => out_of_bounds "buffer"
  end.

End Util.

(** The readers above, with [maxlen] as the bound on strings. *)
Definition Util_readers (maxlen : Z) : Readers :=
  {| read_number := Util.read_number;
     read_string := Util.read_string maxlen;
     read_buffer := Util.read_buffer;
     read_bool := Util.read_bool;
     read_int_int := Util.read_int_int;
     read_int_int_long := Util.read_int_int_long;
     read_int_bool_int := Util.read_int_bool_int;
     read_reply_header := Util.read_reply_header |}.

(** Modelled from the spec: the constants of [zktraffic/base/zookeeper.py],
    which is missing from the sources. The spec calls them a "fixed external
    enumeration shared with the request-encoding side: the full
    operation-code set, and two reserved transaction-id sentinels"; the
    values here are those of the ZooKeeper protocol. *)
Definition ZK : zookeeper :=
  {| WATCH_XID := -1;
     PING_XID := -2;
     OpCodes_CONNECT := 0;
     OpCodes_CREATE := 1;
     OpCodes_DELETE := 2;
     OpCodes_EXISTS := 3;
     OpCodes_GETDATA := 4;
     OpCodes_SETDATA := 5;
     OpCodes_GETCHILDREN := 8;
     OpCodes_SYNC := 9;
     OpCodes_PING := 11;
     OpCodes_GETCHILDREN2 := 12;
     OpCodes_MULTI := 14;
     OpCodes_CREATE2 := 15;
     OpCodes_SETAUTH := 100;
     OpCodes_SETWATCHES := 101 |}.

(** The readers with the bound of 1024 bytes on strings. *)
Definition U : Readers := Util_readers 1024.

(** The registry once the module is imported under [ZK]. *)
Definition TYPES_ZK : gmap (option Z) cls :=
  match import_module ZK with
  | inr TYPES => TYPES
  | inl _ => ∅
  end.

(** ** Sample payloads *)

(** Length 24; header (xid 5, zxid 42, error 0); the string ["/foo"]. *)
Definition create_reply_buf : list byte :=
  [ x00; x00; x00; x18;
    x00; x00; x00; x05;  x00; x00; x00; x00; x00; x00; x00; x2a;  x00; x00; x00; x00;
    x00; x00; x00; x04;  x2f; x66; x6f; x6f ].

(** Length 20; header (xid 5, zxid 42, error 0); a string that declares
    2000 bytes. *)
Definition create_too_long_buf : list byte :=
  [ x00; x00; x00; x14;
    x00; x00; x00; x05;  x00; x00; x00; x00; x00; x00; x00; x2a;  x00; x00; x00; x00;
    x00; x00; x07; xd0 ].

(** Length 28; header (xid -1, zxid -1, error 0); event type 2, state 3;
    a string that declares 2000 bytes. *)
Definition watch_too_long_buf : list byte :=
  [ x00; x00; x00; x1c;
    xff; xff; xff; xff;  xff; xff; xff; xff; xff; xff; xff; xff;  x00; x00; x00; x00;
    x00; x00; x00; x02;  x00; x00; x00; x03;
    x00; x00; x07; xd0 ].

(** Length 23; protocol 0, timeout 30000, session 0x0102030405060708; a
    password of two bytes; read-only flag 0. *)
Definition connect_reply_buf : list byte :=
  [ x00; x00; x00; x17;
    x00; x00; x00; x00;  x00; x00; x75; x30;  x01; x02; x03; x04; x05; x06; x07; x08;
    x00; x00; x00; x02;  xca; xfe;
    x00 ].

(** As [connect_reply_buf], with timeout 0. *)
Definition session_expired_buf : list byte :=
  [ x00; x00; x00; x17;
    x00; x00; x00; x00;  x00; x00; x00; x00;  x01; x02; x03; x04; x05; x06; x07; x08;
    x00; x00; x00; x02;  xca; xfe;
    x00 ].

(** The replies [connect_reply_buf] and [session_expired_buf] decode to. *)
Definition connect_reply : message :=
  ConnectReply_init ConnectReply 0 30000 72623859790382856 [xca; xfe] false "c" "s".

Definition session_expired_reply : message :=
  ConnectReply_init ConnectReply 0 0 72623859790382856 [xca; xfe] false "c" "s".

(** Length 20; header (xid 7, zxid 42, error -101); four more bytes. *)
Definition children_error_buf : list byte :=
  [ x00; x00; x00; x14;
    x00; x00; x00; x07;  x00; x00; x00; x00; x00; x00; x00; x2a;  xff; xff; xff; x9b;
    x00; x00; x00; x09 ].

(** Length 16; header (xid -2, zxid 42, error 0). *)
Definition ping_reply_buf : list byte :=
  [ x00; x00; x00; x10;
    xff; xff; xff; xfe;  x00; x00; x00; x00; x00; x00; x00; x2a;  x00; x00; x00; x00 ].

(** Length 22; header (xid 5, zxid 42, error 0); a string that declares 4
    bytes in a buffer that holds 2 of them. *)
Definition create_truncated_buf : list byte :=
  [ x00; x00; x00; x16;
    x00; x00; x00; x05;  x00; x00; x00; x00; x00; x00; x00; x2a;  x00; x00; x00; x00;
    x00; x00; x00; x04;  x2f; x66 ].

(** Length 0, then a header. *)
Definition bad_length_buf : list byte :=
  [ x00; x00; x00; x00;
    x00; x00; x00; x05;  x00; x00; x00; x00; x00; x00; x00; x2a;  x00; x00; x00; x00 ].

(** ** Tactics *)

(** Case analysis on the reads a [with_params] chains, in hypothesis [H]. *)
Ltac reads_in H :=
  repeat match type of H with
         | context [result_bind ?r _] =>
             let E := fresh "Hread" in destruct r as [?|?] eqn:E; simpl in H
         | context [let '(_, _) := ?p in _] => destruct p
         | context [match ?r with inl _ => _ | inr _ => _ end] =>
             let E := fresh "Hread" in destruct r as [?|?] eqn:E; simpl in H
         | context [if is_StringTooLong ?e then _ else _] =>
             destruct (is_StringTooLong e)
         end.

(** ** The registry *)

Section Registry.

Implicit Types (TYPES : gmap (option Z) cls) (decls : list (cls * option Z)).

Lemma ServerMessageType_new_taken TYPES obj opcode :
  is_Some (TYPES !! opcode) →
  ServerMessageType_new TYPES obj opcode =
    inl (Raise ValueError ("Duplicate class/opcode name: " +:+ string_of_opcode opcode)).
Proof. intros Hin. unfold ServerMessageType_new. by rewrite decide_True. Qed.

Lemma ServerMessageType_new_free TYPES obj opcode :
  TYPES !! opcode = None →
  ServerMessageType_new TYPES obj opcode =
    inr (obj, if opcode is Some _ then <[opcode := obj]> TYPES else TYPES).
Proof.
  intros Hout. unfold ServerMessageType_new.
  rewrite decide_False; [by destruct opcode|].
  rewrite Hout. by intros [? ?].
Qed.

(** A call that returns leaves every earlier entry as it was. *)
Lemma ServerMessageType_new_keeps TYPES TYPES' obj obj' opcode k c :
  ServerMessageType_new TYPES obj opcode = inr (obj', TYPES') →
  TYPES !! k = Some c → TYPES' !! k = Some c.
Proof.
  unfold ServerMessageType_new. case_decide as Hin; [done|].
  intros Hnew Hk. destruct opcode as [op|]; simplify_eq; [|done].
  rewrite lookup_insert_ne; [done|].
  intros <-. apply Hin. by exists c.
Qed.

(** [None] is never a key. *)
Lemma ServerMessageType_new_None TYPES TYPES' obj obj' opcode :
  ServerMessageType_new TYPES obj opcode = inr (obj', TYPES') →
  TYPES !! None = None → TYPES' !! None = None.
Proof.
  unfold ServerMessageType_new. case_decide; [done|].
  intros Hnew HNone. destruct opcode; simplify_eq; [|done].
  by rewrite lookup_insert_ne.
Qed.

Lemma ServerMessageType_new_raises TYPES obj opcode e :
  ServerMessageType_new TYPES obj opcode = inl e → exn_cls e = ValueError.
Proof.
  unfold ServerMessageType_new. case_decide; [|by destruct opcode].
  by intros [= <-].
Qed.

Lemma declare_classes_app decls1 decls2 TYPES :
  declare_classes (decls1 ++ decls2) TYPES =
    let* TYPES' := declare_classes decls1 TYPES in declare_classes decls2 TYPES'.
Proof.
  revert TYPES. induction decls1 as [|[obj opcode] decls1 IH]; intros TYPES; [done|].
  simpl. destruct (ServerMessageType_new TYPES obj opcode) as [e|[obj' TYPES']]; [done|].
  simpl. apply IH.
Qed.

Lemma declare_classes_keeps decls TYPES TYPES' k c :
  declare_classes decls TYPES = inr TYPES' →
  TYPES !! k = Some c → TYPES' !! k = Some c.
Proof.
  revert TYPES. induction decls as [|[obj opcode] decls IH]; intros TYPES; simpl.
  - by intros [= <-].
  - destruct (ServerMessageType_new TYPES obj opcode) as [e|[obj' T1]] eqn:Hnew; [done|].
    simpl. intros Hrest Hk. apply (IH T1 Hrest).
    by eapply ServerMessageType_new_keeps.
Qed.

Lemma declare_classes_None decls TYPES TYPES' :
  declare_classes decls TYPES = inr TYPES' →
  TYPES !! None = None → TYPES' !! None = None.
Proof.
  revert TYPES. induction decls as [|[obj opcode] decls IH]; intros TYPES; simpl.
  - by intros [= <-].
  - destruct (ServerMessageType_new TYPES obj opcode) as [e|[obj' T1]] eqn:Hnew; [done|].
    simpl. intros Hrest HNone. apply (IH T1 Hrest).
    by eapply ServerMessageType_new_None.
Qed.

Lemma declare_classes_raises decls TYPES e :
  declare_classes decls TYPES = inl e → exn_cls e = ValueError.
Proof.
  revert TYPES. induction decls as [|[obj opcode] decls IH]; intros TYPES; simpl; [done|].
  destruct (ServerMessageType_new TYPES obj opcode) as [e'|[obj' T1]] eqn:Hnew; simpl.
  - intros [= <-]. by eapply ServerMessageType_new_raises.
  - apply IH.
Qed.

(** What the registry holds after a run that did not raise: what it held
    before, and the classes declared with an opcode. *)
Lemma declare_classes_lookup decls TYPES TYPES' op c :
  declare_classes decls TYPES = inr TYPES' →
  TYPES' !! Some op = Some c ↔ TYPES !! Some op = Some c ∨ (c, Some op) ∈ decls.
Proof.
  revert TYPES. induction decls as [|[obj opcode] decls IH]; intros TYPES; simpl.
  - intros [= <-]. rewrite elem_of_nil. tauto.
  - destruct (ServerMessageType_new TYPES obj opcode) as [e|[obj' T1]] eqn:Hnew; [done|].
    simpl. intros Hrest. rewrite (IH T1 Hrest), elem_of_cons.
    unfold ServerMessageType_new in Hnew. case_decide as Hin; [done|].
    destruct opcode as [op'|]; simplify_eq.
    + destruct (decide (op' = op)) as [->|Hne].
      * rewrite lookup_insert_eq.
        assert (TYPES !! Some op = None) as ->.
        { destruct (TYPES !! Some op) eqn:E; [|done]. destruct Hin. eauto. }
        intuition congruence.
      * rewrite lookup_insert_ne by congruence. intuition congruence.
    + intuition congruence.
Qed.

(** A run that did not raise declared each opcode at most once. *)
Lemma declare_classes_once decls TYPES TYPES' op :
  declare_classes decls TYPES = inr TYPES' →
  (length (filter (λ d, d.2 = Some op) decls) ≤ 1)%nat ∧
  (is_Some (TYPES !! Some op) → filter (λ d, d.2 = Some op) decls = []).
Proof.
  revert TYPES. induction decls as [|[obj opcode] decls IH]; intros TYPES; simpl.
  - intros _. split; [simpl; lia|done].
  - destruct (ServerMessageType_new TYPES obj opcode) as [e|[obj' T1]] eqn:Hnew; [done|].
    simpl. intros Hrest. destruct (IH T1 Hrest) as [IH1 IH2].
    unfold ServerMessageType_new in Hnew. case_decide as Hin; [done|].
    destruct (decide (opcode = Some op)) as [->|Hne].
    + simplify_eq. rewrite filter_cons_True by done.
      rewrite IH2 by (rewrite lookup_insert_eq; eauto).
      split; [simpl; lia|]. intros Hop. by destruct Hin.
    + rewrite filter_cons_False by done. split; [done|].
      intros [c Hc]. apply IH2. exists c.
      eapply ServerMessageType_new_keeps; [|done].
      unfold ServerMessageType_new. rewrite decide_False by done.
      destruct opcode; by simplify_eq.
Qed.

(** A run in which two class statements carry the same opcode raises. *)
Lemma declare_classes_duplicate TYPES op first obj before between after :
  ∃ e, declare_classes
         (before ++ (first, Some op) :: between ++ (obj, Some op) :: after) TYPES =
         inl e ∧
       exn_cls e = ValueError.
Proof.
  destruct (declare_classes
              (before ++ (first, Some op) :: between ++ (obj, Some op) :: after) TYPES)
    as [e|TYPES'] eqn:Hrun.
  - exists e. split; [done|]. by eapply declare_classes_raises.
  - apply (declare_classes_once _ _ _ op) in Hrun as [Hlen _].
    rewrite filter_app, filter_cons_True, filter_app, filter_cons_True in Hlen by done.
    rewrite length_app in Hlen. simpl in Hlen. rewrite length_app in Hlen.
    simpl in Hlen. lia.
Qed.

End Registry.

(** ** The decoder *)

Section DecoderFacts.

Context (R : Readers) (K : zookeeper).
Implicit Types (TYPES : gmap (option Z) cls) (requests_xids : gmap Z Z).
Implicit Types (data : list byte) (client server : string) (m : message).

Lemma handler_for_watch TYPES requests_xids :
  ServerMessage_handler_for K TYPES (WATCH_XID K) requests_xids =
    (Some WatchEvent, requests_xids).
Proof. unfold ServerMessage_handler_for. by rewrite decide_True. Qed.

Lemma handler_for_request TYPES x requests_xids :
  x ≠ WATCH_XID K → x ≠ PING_XID K →
  ServerMessage_handler_for K TYPES x requests_xids =
    (TYPES !! (requests_xids !! x), delete x requests_xids).
Proof.
  intros Hw Hp. unfold ServerMessage_handler_for, ServerMessageType_get.
  by rewrite !decide_False.
Qed.

(** The table a resolution leaves differs from the one it found at the
    resolved transaction id only. *)
Lemma handler_for_frame TYPES x requests_xids k :
  k ≠ x →
  (ServerMessage_handler_for K TYPES x requests_xids).2 !! k = requests_xids !! k.
Proof.
  intros Hk. unfold ServerMessage_handler_for.
  repeat case_decide; simpl; try done. by rewrite lookup_delete_ne.
Qed.

(** Past the length prefix and the header, the call is the resolution
    followed by the handler's [with_params]. *)
Lemma from_payload_header TYPES data client server requests_xids
    reply_size o1 x z err o2 :
  read_number R data 0 = inr (reply_size, o1) → 0 < reply_size →
  read_reply_header R data o1 = inr ((x, z, err), o2) →
  ServerMessage_from_payload R K TYPES data client server requests_xids =
    match ServerMessage_handler_for K TYPES x requests_xids with
    | (Some handler, remaining) =>
        (with_params R handler x z err data o2 client server, remaining)
    | (None, remaining) =>
        (inl (Raise DeserializationError ("No handler for xid=" +:+ string_of_Z x)),
         remaining)
    end.
Proof.
  intros Hn Hpos Hh. unfold ServerMessage_from_payload.
  rewrite Hn, decide_False by lia. by rewrite Hh.
Qed.

(** A call that returns a message read a positive length and a header,
    resolved a handler and returned what its [with_params] built. *)
Lemma from_payload_inr TYPES data client server requests_xids m :
  (ServerMessage_from_payload R K TYPES data client server requests_xids).1 = inr m →
  ∃ reply_size o1 x z err o2 handler,
    read_number R data 0 = inr (reply_size, o1) ∧ 0 < reply_size ∧
    read_reply_header R data o1 = inr ((x, z, err), o2) ∧
    (ServerMessage_handler_for K TYPES x requests_xids).1 = Some handler ∧
    with_params R handler x z err data o2 client server = inr m.
Proof.
  unfold ServerMessage_from_payload.
  destruct (read_number R data 0) as [e|[reply_size o1]] eqn:Hn; [done|].
  case_decide as Hsz; [done|].
  destruct (read_reply_header R data o1) as [e|[[[x z] err] o2]] eqn:Hh; [done|].
  destruct (ServerMessage_handler_for K TYPES x requests_xids) as [[handler|] remaining]
    eqn:Hf; [|done].
  simpl. intros Hm. exists reply_size, o1, x, z, err, o2, handler.
  split_and!; [done|lia|done|by rewrite Hf|done].
Qed.

(** The instance [with_params] builds is of the class it was called on. *)
Lemma with_params_class handler x z err data offset client server m :
  with_params R handler x z err data offset client server = inr m →
  __class__ m = handler.
Proof.
  destruct handler; simpl;
    unfold ServerMessage_with_params, WatchEvent_with_params, WatchEvent_with_params_locals,
      ConnectReply_with_params, GetChildrenReply_with_params, CreateReply_with_params,
      CreateReply_with_params_locals, MultiReply_with_params, try_except_StringTooLong;
    intros Hm; reads_in Hm;
    repeat match type of Hm with
           | context [if ?b then _ else _] => destruct b; simpl in Hm; reads_in Hm
           end;
    by simplify_eq.
Qed.

End DecoderFacts.

(** ** The correlation table *)

(** C1. A reply whose transaction id is not one of the two reserved ones
    and that resolves to a handler takes its entry out of [requests_xids]:
    the table the call leaves is the one it was given without that id, and
    the same buffer decoded against the table left fails with
    [DeserializationError("No handler for xid=...")], the exception the
    decoder raises for a transaction id it cannot resolve. The registry is
    any one the metaclass built, so [None] is not one of its keys. *)
Theorem xid_consumed_exactly_once (R : Readers) (K : zookeeper)
    (decls : list (cls * option Z)) (TYPES : gmap (option Z) cls)
    (data : list byte) (client server : string) (requests_xids : gmap Z Z)
    (reply_size o1 x z err o2 : Z) (handler : cls) :
  declare_classes decls ∅ = inr TYPES →
  read_number R data 0 = inr (reply_size, o1) → 0 < reply_size →
  read_reply_header R data o1 = inr ((x, z, err), o2) →
  x ≠ WATCH_XID K → x ≠ PING_XID K →
  (ServerMessage_handler_for K TYPES x requests_xids).1 = Some handler →
  ∃ remaining : gmap Z Z,
    ServerMessage_from_payload R K TYPES data client server requests_xids =
      (with_params R handler x z err data o2 client server, remaining) ∧
    is_Some (requests_xids !! x) ∧
    remaining = delete x requests_xids ∧
    remaining !! x = None ∧
    ServerMessage_from_payload R K TYPES data client server remaining =
      (inl (Raise DeserializationError ("No handler for xid=" +:+ string_of_Z x)),
       remaining).
Proof.
  intros Hreg Hn Hpos Hh Hw Hp Hfor.
  assert (TYPES !! None = None) as HNone
    by (eapply declare_classes_None; [done|apply lookup_empty]).
  rewrite handler_for_request in Hfor by done. simpl in Hfor.
  exists (delete x requests_xids). split_and!.
  - rewrite (from_payload_header R K _ _ _ _ _ _ _ _ _ _ _ Hn Hpos Hh).
    rewrite handler_for_request by done. by rewrite Hfor.
  - destruct (requests_xids !! x) eqn:E; [by eexists|]. by rewrite HNone in Hfor.
  - done.
  - apply lookup_delete_eq.
  - rewrite (from_payload_header R K _ _ _ _ _ _ _ _ _ _ _ Hn Hpos Hh).
    rewrite handler_for_request by done.
    rewrite lookup_delete_eq, HNone. by rewrite delete_delete_eq.
Qed.

Lemma xid_consumed_exactly_once_witness :
  ∃ remaining : gmap Z Z,
    ServerMessage_from_payload U ZK TYPES_ZK create_reply_buf "c" "s" {[5 := 1]} =
      (with_params U CreateReply 5 42 0 create_reply_buf 20 "c" "s", remaining) ∧
    is_Some (({[5 := 1]} : gmap Z Z) !! 5) ∧
    remaining = delete 5 {[5 := 1]} ∧
    remaining !! 5 = None ∧
    ServerMessage_from_payload U ZK TYPES_ZK create_reply_buf "c" "s" remaining =
      (inl (Raise DeserializationError ("No handler for xid=" +:+ string_of_Z 5)),
       remaining).
Proof.
  apply (xid_consumed_exactly_once U ZK (module_declarations ZK) TYPES_ZK
           create_reply_buf "c" "s" {[5 := 1]} 24 4 5 42 0 20 CreateReply).
  - vm_compute. reflexivity.
  - vm_compute. reflexivity.
  - lia.
  - vm_compute. reflexivity.
  - simpl. lia.
  - simpl. lia.
  - vm_compute. reflexivity.
Defined.

(** C10. When the transaction id is in [requests_xids] but the opcode
    recorded under it has no class in the registry, the call raises and
    still leaves the table without the entry: the table is changed by a
    call that returns no message. *)
Theorem unregistered_opcode_still_consumed (R : Readers) (K : zookeeper)
    (TYPES : gmap (option Z) cls)
    (data : list byte) (client server : string) (requests_xids : gmap Z Z)
    (reply_size o1 x z err o2 op : Z) :
  read_number R data 0 = inr (reply_size, o1) → 0 < reply_size →
  read_reply_header R data o1 = inr ((x, z, err), o2) →
  x ≠ WATCH_XID K → x ≠ PING_XID K →
  requests_xids !! x = Some op →
  ServerMessageType_get TYPES (Some op) = None →
  ServerMessage_from_payload R K TYPES data client server requests_xids =
    (inl (Raise DeserializationError ("No handler for xid=" +:+ string_of_Z x)),
     delete x requests_xids) ∧
  delete x requests_xids !! x = None ∧
  delete x requests_xids ≠ requests_xids ∧
  (∀ k, k ≠ x → delete x requests_xids !! k = requests_xids !! k).
Proof.
  intros Hn Hpos Hh Hw Hp Hx Hget. unfold ServerMessageType_get in Hget. split_and!.
  - rewrite (from_payload_header R K _ _ _ _ _ _ _ _ _ _ _ Hn Hpos Hh).
    rewrite handler_for_request by done. by rewrite Hx, Hget.
  - apply lookup_delete_eq.
  - intros Heq. assert (delete x requests_xids !! x = Some op) as Hd by by rewrite Heq.
    by rewrite lookup_delete_eq in Hd.
  - intros k Hk. by apply lookup_delete_ne.
Qed.

Lemma unregistered_opcode_still_consumed_witness :
  ServerMessage_from_payload U ZK TYPES_ZK children_error_buf "c" "s" {[7 := 6]} =
    (inl (Raise DeserializationError ("No handler for xid=" +:+ string_of_Z 7)),
     delete 7 {[7 := 6]}) ∧
  delete 7 ({[7 := 6]} : gmap Z Z) !! 7 = None ∧
  delete 7 ({[7 := 6]} : gmap Z Z) ≠ {[7 := 6]} ∧
  (∀ k, k ≠ 7 → delete 7 ({[7 := 6]} : gmap Z Z) !! k = ({[7 := 6]} : gmap Z Z) !! k).
Proof.
  apply (unregistered_opcode_still_consumed U ZK TYPES_ZK
           children_error_buf "c" "s" {[7 := 6]} 20 4 7 42 (-101) 20 6).
  - vm_compute. reflexivity.
  - lia.
  - vm_compute. reflexivity.
  - simpl. lia.
  - simpl. lia.
  - vm_compute. reflexivity.
  - vm_compute. reflexivity.
Defined.

(** What a call returns depends on the table through the entry of the
    reply's transaction id alone. *)
Lemma from_payload_entry (R : Readers) (K : zookeeper) (TYPES : gmap (option Z) cls)
    (data : list byte) (client server : string) (t1 t2 : gmap Z Z)
    (reply_size o1 x z err o2 : Z) :
  read_number R data 0 = inr (reply_size, o1) →
  read_reply_header R data o1 = inr ((x, z, err), o2) →
  t1 !! x = t2 !! x →
  (ServerMessage_from_payload R K TYPES data client server t1).1 =
  (ServerMessage_from_payload R K TYPES data client server t2).1.
Proof.
  intros Hn Hh Hx. unfold ServerMessage_from_payload. rewrite Hn.
  case_decide; [done|]. rewrite Hh.
  unfold ServerMessage_handler_for. repeat case_decide; try done.
  rewrite Hx. by destruct (ServerMessageType_get TYPES (t2 !! x)).
Qed.

(** C9. Two calls on the same buffer and endpoints, under the same
    registry, against tables that hold the same entries, return the same
    message or raise the same exception, and leave tables that hold the
    same entries. *)
Theorem decoding_is_deterministic (R : Readers) (K : zookeeper)
    (TYPES : gmap (option Z) cls)
    (data : list byte) (client server : string) (t1 t2 : gmap Z Z) :
  (∀ k, t1 !! k = t2 !! k) →
  (ServerMessage_from_payload R K TYPES data client server t1).1 =
    (ServerMessage_from_payload R K TYPES data client server t2).1 ∧
  (∀ k, (ServerMessage_from_payload R K TYPES data client server t1).2 !! k =
        (ServerMessage_from_payload R K TYPES data client server t2).2 !! k).
Proof. intros Heq. apply map_eq in Heq. by subst. Qed.

Lemma decoding_is_deterministic_witness :
  (ServerMessage_from_payload U ZK TYPES_ZK create_reply_buf "c" "s"
     (<[5 := 1]> (<[7 := 8]> ∅))).1 =
    (ServerMessage_from_payload U ZK TYPES_ZK create_reply_buf "c" "s"
       (<[7 := 8]> (<[5 := 1]> ∅))).1 ∧
  (∀ k, (ServerMessage_from_payload U ZK TYPES_ZK create_reply_buf "c" "s"
           (<[5 := 1]> (<[7 := 8]> ∅))).2 !! k =
        (ServerMessage_from_payload U ZK TYPES_ZK create_reply_buf "c" "s"
           (<[7 := 8]> (<[5 := 1]> ∅))).2 !! k).
Proof.
  apply (decoding_is_deterministic U ZK TYPES_ZK create_reply_buf "c" "s"
           (<[5 := 1]> (<[7 := 8]> ∅)) (<[7 := 8]> (<[5 := 1]> ∅))).
  intros k. vm_compute. reflexivity.
Defined.

(** ** Framing *)

(** C3, as the code has it. A length prefix that is zero or negative makes
    the call raise [DeserializationError("Bad reply length: ...")], the
    class the decoder raises for every payload it cannot decode; the table
    is left as it was, and nothing but the length prefix was read: readers
    that agree on the prefix give the same outcome. *)
Theorem nonpositive_length_raises_first (R : Readers) (K : zookeeper)
    (TYPES : gmap (option Z) cls)
    (data : list byte) (client server : string) (requests_xids : gmap Z Z)
    (reply_size o1 : Z) :
  read_number R data 0 = inr (reply_size, o1) → reply_size ≤ 0 →
  ServerMessage_from_payload R K TYPES data client server requests_xids =
    (inl (Raise DeserializationError ("Bad reply length: " +:+ string_of_Z reply_size)),
     requests_xids) ∧
  (∀ R' : Readers, read_number R' data 0 = read_number R data 0 →
     ServerMessage_from_payload R' K TYPES data client server requests_xids =
     ServerMessage_from_payload R K TYPES data client server requests_xids).
Proof.
  intros Hn Hsz.
  assert (∀ R' : Readers, read_number R' data 0 = inr (reply_size, o1) →
            ServerMessage_from_payload R' K TYPES data client server requests_xids =
              (inl (Raise DeserializationError
                      ("Bad reply length: " +:+ string_of_Z reply_size)),
               requests_xids)) as Hraise.
  { intros R' Hn'. unfold ServerMessage_from_payload. rewrite Hn'. by rewrite decide_True. }
  split; [by apply Hraise|].
  intros R' Hsame. rewrite (Hraise R) by done. apply Hraise. by rewrite Hsame.
Qed.

Lemma nonpositive_length_raises_first_witness :
  ServerMessage_from_payload U ZK TYPES_ZK bad_length_buf "c" "s" {[5 := 1]} =
    (inl (Raise DeserializationError ("Bad reply length: " +:+ string_of_Z 0)),
     {[5 := 1]}) ∧
  (∀ R' : Readers, read_number R' bad_length_buf 0 = read_number U bad_length_buf 0 →
     ServerMessage_from_payload R' ZK TYPES_ZK bad_length_buf "c" "s" {[5 := 1]} =
     ServerMessage_from_payload U ZK TYPES_ZK bad_length_buf "c" "s" {[5 := 1]}).
Proof.
  apply (nonpositive_length_raises_first U ZK TYPES_ZK bad_length_buf "c" "s"
           {[5 := 1]} 0 4).
  - vm_compute. reflexivity.
  - lia.
Defined.

(** C3 as the claim words it fails: the exception for a length of zero is
    of class [DeserializationError], the very class raised when no handler
    is found for a transaction id, not a class of its own. *)
Lemma bad_length_is_a_DeserializationError :
  ServerMessage_from_payload U ZK TYPES_ZK bad_length_buf "c" "s" ∅ =
    (inl (Raise DeserializationError "Bad reply length: 0"), ∅) ∧
  ServerMessage_from_payload U ZK TYPES_ZK create_reply_buf "c" "s" ∅ =
    (inl (Raise DeserializationError "No handler for xid=5"), ∅) ∧
  exn_cls (Raise DeserializationError "Bad reply length: 0") =
    exn_cls (Raise DeserializationError "No handler for xid=5").
Proof. split_and!; vm_compute; reflexivity. Qed.

(** ** Events and connect replies *)

Lemma WatchEvent_with_params_inr (R : Readers) (c : cls) (x z err : Z)
    (data : list byte) (offset : Z) (client server : string) (m : message) :
  WatchEvent_with_params R c x z err data offset client server = inr m →
  ∃ event_type state path,
    m = WatchEvent_init c event_type state path client server.
Proof.
  unfold WatchEvent_with_params, WatchEvent_with_params_locals, try_except_StringTooLong.
  intros H. reads_in H; simplify_eq; eauto.
Qed.

Lemma ConnectReply_with_params_inr (R : Readers) (c : cls) (x z err : Z)
    (data : list byte) (offset : Z) (client server : string) (m : message) :
  ConnectReply_with_params R c x z err data offset client server = inr m →
  ∃ protocol timeout session passwd readonly,
    m = ConnectReply_init c protocol timeout session passwd readonly client server.
Proof.
  unfold ConnectReply_with_params. intros H. reads_in H; simplify_eq. eauto 10.
Qed.

(** C2, as the code has it. A decoded [WatchEvent] has transaction id -1,
    server transaction id -1 and error 0; a decoded [ConnectReply] has
    transaction id 0, server transaction id -1 and error 0; both whatever
    the payload holds. *)
Theorem fixed_ids_of_events_and_connect_replies (R : Readers) (K : zookeeper)
    (TYPES : gmap (option Z) cls)
    (data : list byte) (client server : string) (requests_xids : gmap Z Z)
    (m : message) :
  (ServerMessage_from_payload R K TYPES data client server requests_xids).1 = inr m →
  (__class__ m = WatchEvent → xid m = -1 ∧ zxid m = -1 ∧ error m = 0) ∧
  (__class__ m = ConnectReply → xid m = 0 ∧ zxid m = -1 ∧ error m = 0).
Proof.
  intros Hm.
  destruct (from_payload_inr R K _ _ _ _ _ _ Hm)
    as (reply_size & o1 & x & z & err & o2 & handler & _ & _ & _ & _ & Hwith).
  pose proof (with_params_class R _ _ _ _ _ _ _ _ _ Hwith) as Hcls.
  split; intros Hc; rewrite Hc in Hcls; subst handler; simpl in Hwith.
  - apply WatchEvent_with_params_inr in Hwith as (? & ? & ? & ->). done.
  - apply ConnectReply_with_params_inr in Hwith as (? & ? & ? & ? & ? & ->). done.
Qed.

Lemma fixed_ids_of_events_and_connect_replies_witness :
  (xid (WatchEvent_init WatchEvent 2 3 "path-too-long" "c" "s") = -1 ∧
   zxid (WatchEvent_init WatchEvent 2 3 "path-too-long" "c" "s") = -1 ∧
   error (WatchEvent_init WatchEvent 2 3 "path-too-long" "c" "s") = 0) ∧
  (xid connect_reply = 0 ∧ zxid connect_reply = -1 ∧ error connect_reply = 0).
Proof.
  split.
  - destruct (fixed_ids_of_events_and_connect_replies U ZK TYPES_ZK
                watch_too_long_buf "c" "s" ∅
                (WatchEvent_init WatchEvent 2 3 "path-too-long" "c" "s")) as [Hevent _].
    + vm_compute. reflexivity.
    + apply Hevent. reflexivity.
  - destruct (fixed_ids_of_events_and_connect_replies U ZK TYPES_ZK
                connect_reply_buf "c" "s" {[0 := 0]} connect_reply) as [_ Hconnect].
    + vm_compute. reflexivity.
    + apply Hconnect. reflexivity.
Defined.

(** C2 as the claim words it fails on connect replies: the reply decoded
    from [connect_reply_buf] has transaction id 0, not -1. *)
Lemma ConnectReply_xid_is_not_minus_one :
  ∃ m : message,
    (ServerMessage_from_payload U ZK TYPES_ZK connect_reply_buf "c" "s" {[0 := 0]}).1 =
      inr m ∧
    __class__ m = ConnectReply ∧ xid m = 0 ∧ xid m ≠ -1.
Proof.
  eexists. split_and!; [vm_compute; reflexivity|done|done|done].
Qed.

(** C8. A decoded [ConnectReply] has a timeout. When it is zero or
    negative the name is ["SessionExpiration"], whatever the error code
    of the instance; when it is positive the name is the one
    [ServerMessage.name] gives, which for a decoded reply (error 0) is
    ["ConnectReply"]. The name is a function of the instance: it takes no
    part in decoding and returns nothing but the label. *)
Theorem ConnectReply_display_name (R : Readers) (K : zookeeper)
    (TYPES : gmap (option Z) cls)
    (data : list byte) (client server : string) (requests_xids : gmap Z Z)
    (m : message) :
  __class__ m = ConnectReply →
  (∀ timeout, timeout_of m = Some timeout →
     (timeout ≤ 0 → name m = inr "SessionExpiration") ∧
     (0 < timeout → name m = inr (ServerMessage_name m))) ∧
  ((ServerMessage_from_payload R K TYPES data client server requests_xids).1 = inr m →
     ∃ timeout, timeout_of m = Some timeout ∧ ServerMessage_name m = "ConnectReply").
Proof.
  intros Hc. split.
  - intros timeout Ht. unfold name, ConnectReply_name. rewrite Hc, Ht.
    split; intros Hcmp; [by rewrite decide_False by lia|by rewrite decide_True by lia].
  - intros Hm.
    destruct (from_payload_inr R K _ _ _ _ _ _ Hm)
      as (reply_size & o1 & x & z & err & o2 & handler & _ & _ & _ & _ & Hwith).
    pose proof (with_params_class R _ _ _ _ _ _ _ _ _ Hwith) as Hcls.
    rewrite Hc in Hcls. subst handler. simpl in Hwith.
    apply ConnectReply_with_params_inr in Hwith as (? & timeout & ? & ? & ? & ->).
    by exists timeout.
Qed.

Lemma ConnectReply_display_name_witness :
  name session_expired_reply = inr "SessionExpiration" ∧
  name connect_reply = inr "ConnectReply" ∧
  (ServerMessage_from_payload U ZK TYPES_ZK session_expired_buf "c" "s" {[0 := 0]}).1 =
    inr session_expired_reply.
Proof.
  split_and!.
  - destruct (ConnectReply_display_name U ZK TYPES_ZK session_expired_buf "c" "s"
                {[0 := 0]} session_expired_reply) as [Hname _].
    + reflexivity.
    + apply (Hname 0); [reflexivity|lia].
  - destruct (ConnectReply_display_name U ZK TYPES_ZK connect_reply_buf "c" "s"
                {[0 := 0]} connect_reply) as [Hname Hdecoded].
    + reflexivity.
    + destruct Hdecoded as (timeout & _ & Hdefault); [vm_compute; reflexivity|].
      rewrite <- Hdefault. apply (Hname 30000); [reflexivity|lia].
  - vm_compute. reflexivity.
Defined.

(** ** Duplicate opcodes *)

(** C4. The metaclass refuses a class whose opcode is already a key of
    the registry: it raises [ValueError("Duplicate class/opcode name:
    ...")]. A run of class statements two of which carry the same opcode
    therefore raises, and a run that does not raise has declared each
    opcode at most once, the registry holding under it the one class
    declared with it. *)
Theorem duplicate_opcode_rejected (TYPES : gmap (option Z) cls) (obj : cls) (op : Z) :
  (is_Some (TYPES !! Some op) →
   ServerMessageType_new TYPES obj (Some op) =
     inl (Raise ValueError ("Duplicate class/opcode name: " +:+ string_of_Z op))) ∧
  (∀ (first : cls) (before between after : list (cls * option Z)),
     ∃ e, declare_classes
            (before ++ (first, Some op) :: between ++ (obj, Some op) :: after) TYPES =
            inl e ∧
          exn_cls e = ValueError) ∧
  (∀ (decls : list (cls * option Z)) (TYPES' : gmap (option Z) cls),
     declare_classes decls TYPES = inr TYPES' →
     (length (filter (λ d, d.2 = Some op) decls) ≤ 1)%nat ∧
     (is_Some (TYPES !! Some op) → filter (λ d, d.2 = Some op) decls = []) ∧
     (∀ c, TYPES' !! Some op = Some c ↔
           TYPES !! Some op = Some c ∨ (c, Some op) ∈ decls)).
Proof.
  split_and!.
  - intros Hin. by rewrite ServerMessageType_new_taken.
  - intros first before between after. apply declare_classes_duplicate.
  - intros decls TYPES' Hrun. split_and!.
    + by eapply declare_classes_once.
    + by eapply declare_classes_once.
    + intros c. by apply declare_classes_lookup.
Qed.

Lemma duplicate_opcode_rejected_witness :
  (is_Some (TYPES_ZK !! Some 1) →
   ServerMessageType_new TYPES_ZK ServerMessage (Some 1) =
     inl (Raise ValueError ("Duplicate class/opcode name: " +:+ string_of_Z 1))) ∧
  (∀ (first : cls) (before between after : list (cls * option Z)),
     ∃ e, declare_classes
            (before ++ (first, Some 1) :: between ++ (ServerMessage, Some 1) :: after)
            TYPES_ZK = inl e ∧
          exn_cls e = ValueError) ∧
  (∀ (decls : list (cls * option Z)) (TYPES' : gmap (option Z) cls),
     declare_classes decls TYPES_ZK = inr TYPES' →
     (length (filter (λ d : cls * option Z, d.2 = Some 1%Z) decls) ≤ 1)%nat ∧
     (is_Some (TYPES_ZK !! Some 1) →
      filter (λ d : cls * option Z, d.2 = Some 1) decls = []) ∧
     (∀ c, TYPES' !! Some 1 = Some c ↔
           TYPES_ZK !! Some 1 = Some c ∨ (c, Some 1) ∈ decls)).
Proof. apply (duplicate_opcode_rejected TYPES_ZK ServerMessage 1). Defined.

(** Importing the module under [ZK] builds the registry [TYPES_ZK]; under
    constants that give two classes one opcode it raises. *)
Lemma import_module_ZK : import_module ZK = inr TYPES_ZK.
Proof. vm_compute. reflexivity. Qed.

Lemma import_module_clash (K : zookeeper) :
  OpCodes_CREATE K = OpCodes_CREATE2 K →
  ∃ e, import_module K = inl e ∧ exn_cls e = ValueError.
Proof.
  intros Hclash. unfold import_module, module_declarations, module_classes.
  simpl fmap. rewrite <- Hclash.
  apply (declare_classes_duplicate ∅ (OpCodes_CREATE K) CreateReply Create2Reply
           [ (ClientMessageType, None); (ServerMessage, None); (WatchEvent, None);
             (Reply, None); (ConnectReply, Some (OpCodes_CONNECT K));
             (PingReply, Some (OpCodes_PING K)); (AuthReply, Some (OpCodes_SETAUTH K));
             (GetDataReply, Some (OpCodes_GETDATA K));
             (ExistsReply, Some (OpCodes_EXISTS K)); (SyncReply, Some (OpCodes_SYNC K));
             (SetDataReply, Some (OpCodes_SETDATA K));
             (DeleteReply, Some (OpCodes_DELETE K));
             (GetChildrenReply, Some (OpCodes_GETCHILDREN K));
             (GetChildren2Reply, Some (OpCodes_GETCHILDREN2 K)) ]
           []
           [ (SetWatchesReply, Some (OpCodes_SETWATCHES K));
             (MultiReply, Some (OpCodes_MULTI K)) ]).
Qed.

(** ** The concrete readers *)

(** [Util.read_number] leaves the offset [INT_STRUCT.size] further: the
    offset after the length prefix, read at 0, is [INT_STRUCT.size]. *)
Lemma Util_read_number_offset (data : list byte) (offset v o : Z) :
  Util.read_number data offset = inr (v, o) → o = offset + INT_STRUCT_size.
Proof.
  unfold Util.read_number, Util.read_signed.
  destruct (Util.slice data offset INT_STRUCT_size); [|done]. by intros [= _ <-].
Qed.

(** A declared length over the bound makes [Util.read_string] raise
    [StringTooLong], whatever follows the length. *)
Lemma Util_read_string_too_long (maxlen : Z) (data : list byte) (offset len o : Z) :
  Util.read_number data offset = inr (len, o) → maxlen < len →
  Util.read_string maxlen data offset =
    inl (Raise StringTooLong ("Length is " +:+ string_of_Z len)).
Proof.
  intros Hn Hlen. unfold Util.read_string. rewrite Hn. simpl.
  by rewrite decide_True by lia.
Qed.

(** ** Payloads of failed requests *)

(** C5. When the error code of the header is not zero, a
    [GetChildrenReply] or [GetChildren2Reply] is built with count 0, and a
    [CreateReply] or [Create2Reply] with the empty path; no reader is
    called after the header: [with_params] returns the same instance for
    every set of readers, every buffer and every offset, and the offset of
    [CreateReply.with_params] is left where the header ended. *)
Theorem failed_replies_read_no_payload (R : Readers) (K : zookeeper)
    (TYPES : gmap (option Z) cls)
    (data : list byte) (client server : string) (requests_xids : gmap Z Z)
    (reply_size o1 x z err o2 : Z) (handler : cls) :
  read_number R data 0 = inr (reply_size, o1) → 0 < reply_size →
  read_reply_header R data o1 = inr ((x, z, err), o2) →
  err ≠ 0 →
  (ServerMessage_handler_for K TYPES x requests_xids).1 = Some handler →
  (handler = GetChildrenReply ∨ handler = GetChildren2Reply →
     (ServerMessage_from_payload R K TYPES data client server requests_xids).1 =
       inr (GetChildrenReply_init handler x z err 0 client server) ∧
     count_of (GetChildrenReply_init handler x z err 0 client server) = Some 0 ∧
     (∀ (R' : Readers) (data' : list byte) (offset' : Z),
        with_params R' handler x z err data' offset' client server =
          inr (GetChildrenReply_init handler x z err 0 client server))) ∧
  (handler = CreateReply ∨ handler = Create2Reply →
     (ServerMessage_from_payload R K TYPES data client server requests_xids).1 =
       inr (ServerMessage_init handler NoAttrs x z err "" client server) ∧
     path (ServerMessage_init handler NoAttrs x z err "" client server) = "" ∧
     CreateReply_with_params_locals R err data o2 = inr (""%string, o2) ∧
     (∀ (R' : Readers) (data' : list byte) (offset' : Z),
        with_params R' handler x z err data' offset' client server =
          inr (ServerMessage_init handler NoAttrs x z err "" client server))).
Proof.
  intros Hn Hpos Hh Herr Hfor.
  assert ((ServerMessage_from_payload R K TYPES data client server requests_xids).1 =
            with_params R handler x z err data o2 client server) as Hcall.
  { rewrite (from_payload_header R K _ _ _ _ _ _ _ _ _ _ _ Hn Hpos Hh).
    destruct (ServerMessage_handler_for K TYPES x requests_xids) as [[h|] remaining];
      by simplify_eq/=. }
  assert (∀ (R' : Readers) (data' : list byte) (offset' : Z),
            GetChildrenReply_with_params R' handler x z err data' offset' client server =
              inr (GetChildrenReply_init handler x z err 0 client server)) as Hchildren.
  { intros. unfold GetChildrenReply_with_params. by rewrite decide_False. }
  assert (∀ (R' : Readers) (data' : list byte) (offset' : Z),
            CreateReply_with_params_locals R' err data' offset' = inr (""%string, offset'))
    as Hlocals.
  { intros. unfold CreateReply_with_params_locals. by rewrite decide_False. }
  assert (∀ (R' : Readers) (data' : list byte) (offset' : Z),
            CreateReply_with_params R' handler x z err data' offset' client server =
              inr (ServerMessage_init handler NoAttrs x z err "" client server)) as Hcreate.
  { intros. unfold CreateReply_with_params. by rewrite Hlocals. }
  split; intros [-> | ->]; rewrite Hcall; simpl; split_and!; auto.
Qed.

Lemma failed_replies_read_no_payload_witness :
  ((ServerMessage_from_payload U ZK TYPES_ZK children_error_buf "c" "s" {[7 := 8]}).1 =
     inr (GetChildrenReply_init GetChildrenReply 7 42 (-101) 0 "c" "s") ∧
   count_of (GetChildrenReply_init GetChildrenReply 7 42 (-101) 0 "c" "s") = Some 0) ∧
  ((ServerMessage_from_payload U ZK TYPES_ZK children_error_buf "c" "s" {[7 := 1]}).1 =
     inr (ServerMessage_init CreateReply NoAttrs 7 42 (-101) "" "c" "s") ∧
   CreateReply_with_params_locals U (-101) children_error_buf 20 = inr (""%string, 20)).
Proof.
  split.
  - destruct (failed_replies_read_no_payload U ZK TYPES_ZK children_error_buf "c" "s"
                {[7 := 8]} 20 4 7 42 (-101) 20 GetChildrenReply) as [Hchildren _].
    + vm_compute. reflexivity.
    + lia.
    + vm_compute. reflexivity.
    + lia.
    + vm_compute. reflexivity.
    + destruct (Hchildren (or_introl eq_refl)) as (Hcall & Hcount & _). by split.
  - destruct (failed_replies_read_no_payload U ZK TYPES_ZK children_error_buf "c" "s"
                {[7 := 1]} 20 4 7 42 (-101) 20 CreateReply) as [_ Hcreate].
    + vm_compute. reflexivity.
    + lia.
    + vm_compute. reflexivity.
    + lia.
    + vm_compute. reflexivity.
    + destruct (Hcreate (or_introl eq_refl)) as (Hcall & _ & Hlocals & _). by split.
Defined.

(** ** The connect reply *)

(** C6. When the handler is [ConnectReply], the header that was read is
    set aside: the call reads, from offset [INT_STRUCT.size] (the 4 bytes
    of the length prefix start at offset 0), the protocol version, timeout
    and session id, then the password buffer, then the read-only flag,
    each from the offset the read before it returned, and builds the
    reply from these five values. The transaction id, server transaction
    id, error code and offset handed to [with_params] have no part in
    it. *)
Theorem ConnectReply_reads_its_own_layout (R : Readers) (K : zookeeper)
    (TYPES : gmap (option Z) cls)
    (data : list byte) (client server : string) (requests_xids : gmap Z Z)
    (reply_size o1 x z err o2 : Z) :
  read_number R data 0 = inr (reply_size, o1) → 0 < reply_size →
  read_reply_header R data o1 = inr ((x, z, err), o2) →
  (ServerMessage_handler_for K TYPES x requests_xids).1 = Some ConnectReply →
  (ServerMessage_from_payload R K TYPES data client server requests_xids).1 =
    match read_int_int_long R data INT_STRUCT_size with
    | inl e => inl e
    | inr ((protocol, timeout, session), after_session) =>
        match read_buffer R data after_session with
        | inl e => inl e
        | inr (passwd, after_passwd) =>
            match read_bool R data after_passwd with
            | inl e => inl e
            | inr (readonly, _) =>
                inr {| __class__ := ConnectReply;
                       timestamp := 0;
                       xid := 0;
                       zxid := -1;
                       error := 0;
                       path := "";
                       client := client;
                       auth := "";
                       server := server;
                       extra := ConnectReplyAttrs protocol timeout session passwd readonly |}
            end
        end
    end ∧
  INT_STRUCT_size = 0 + 4 ∧
  (∀ x' z' err' offset' : Z,
     with_params R ConnectReply x' z' err' data offset' client server =
     with_params R ConnectReply x z err data o2 client server).
Proof.
  intros Hn Hpos Hh Hfor. split_and!; [|done|done].
  rewrite (from_payload_header R K _ _ _ _ _ _ _ _ _ _ _ Hn Hpos Hh).
  destruct (ServerMessage_handler_for K TYPES x requests_xids) as [[h|] remaining];
    simplify_eq/=.
  unfold ConnectReply_with_params.
  destruct (read_int_int_long R data INT_STRUCT_size)
    as [e|[[[protocol timeout] session] after_session]]; [done|]. simpl.
  destruct (read_buffer R data after_session) as [e|[passwd after_passwd]]; [done|]. simpl.
  by destruct (read_bool R data after_passwd) as [e|[readonly after_readonly]].
Qed.

Lemma ConnectReply_reads_its_own_layout_witness :
  (ServerMessage_from_payload U ZK TYPES_ZK connect_reply_buf "c" "s" {[0 := 0]}).1 =
    inr {| __class__ := ConnectReply;
           timestamp := 0;
           xid := 0;
           zxid := -1;
           error := 0;
           path := "";
           client := "c";
           auth := "";
           server := "s";
           extra := ConnectReplyAttrs 0 30000 72623859790382856 [xca; xfe] false |}.
Proof.
  destruct (ConnectReply_reads_its_own_layout U ZK TYPES_ZK connect_reply_buf "c" "s"
              {[0 := 0]} 23 4 0 128849035789060 84281096 20) as (Hcall & _ & _).
  - vm_compute. reflexivity.
  - lia.
  - vm_compute. reflexivity.
  - vm_compute. reflexivity.
  - rewrite Hcall. vm_compute. reflexivity.
Defined.

(** ** Paths over the length bound *)

(** C7, as the code has it. When [read_string] raises [StringTooLong] on
    the path of a [WatchEvent], or of a [CreateReply] or [Create2Reply]
    whose error code is 0, the call does not raise: the instance is built
    with the path ["path-too-long"] and with the fields read before the
    path. The path is the last field either class reads, so nothing is
    decoded after it; the offset is left where the length of the path
    begins, the reader having raised without returning one. *)
Theorem too_long_path_is_replaced (R : Readers) (K : zookeeper)
    (TYPES : gmap (option Z) cls)
    (data : list byte) (client server : string) (requests_xids : gmap Z Z)
    (reply_size o1 x z err o2 : Z) (handler : cls) :
  read_number R data 0 = inr (reply_size, o1) → 0 < reply_size →
  read_reply_header R data o1 = inr ((x, z, err), o2) →
  (ServerMessage_handler_for K TYPES x requests_xids).1 = Some handler →
  (handler = WatchEvent →
   ∀ (event_type state o3 : Z) (e : exn),
     read_int_int R data o2 = inr ((event_type, state), o3) →
     read_string R data o3 = inl e → exn_cls e = StringTooLong →
     (ServerMessage_from_payload R K TYPES data client server requests_xids).1 =
       inr (WatchEvent_init WatchEvent event_type state "path-too-long" client server) ∧
     WatchEvent_with_params_locals R data o2 =
       inr (event_type, state, "path-too-long"%string, o3)) ∧
  (handler = CreateReply ∨ handler = Create2Reply →
   ∀ e : exn,
     err = 0 → read_string R data o2 = inl e → exn_cls e = StringTooLong →
     (ServerMessage_from_payload R K TYPES data client server requests_xids).1 =
       inr (ServerMessage_init handler NoAttrs x z 0 "path-too-long" client server) ∧
     CreateReply_with_params_locals R err data o2 = inr ("path-too-long"%string, o2)).
Proof.
  intros Hn Hpos Hh Hfor.
  assert ((ServerMessage_from_payload R K TYPES data client server requests_xids).1 =
            with_params R handler x z err data o2 client server) as Hcall.
  { rewrite (from_payload_header R K _ _ _ _ _ _ _ _ _ _ _ Hn Hpos Hh).
    destruct (ServerMessage_handler_for K TYPES x requests_xids) as [[h|] remaining];
      by simplify_eq/=. }
  assert (∀ e : exn, exn_cls e = StringTooLong → is_StringTooLong e = true) as Hcatch.
  { intros e He. unfold is_StringTooLong. by rewrite bool_decide_eq_true. }
  split.
  - intros -> event_type state o3 e Hii Hs He.
    assert (WatchEvent_with_params_locals R data o2 =
              inr (event_type, state, "path-too-long"%string, o3)) as Hlocals.
    { unfold WatchEvent_with_params_locals, try_except_StringTooLong.
      rewrite Hii. simpl. rewrite Hs. by rewrite Hcatch. }
    split; [|done]. rewrite Hcall. simpl. unfold WatchEvent_with_params.
    by rewrite Hlocals.
  - intros Hcreate e -> Hs He.
    assert (CreateReply_with_params_locals R 0 data o2 =
              inr ("path-too-long"%string, o2)) as Hlocals.
    { unfold CreateReply_with_params_locals, try_except_StringTooLong.
      rewrite decide_True by done. rewrite Hs. by rewrite Hcatch. }
    split; [|done]. rewrite Hcall.
    destruct Hcreate as [-> | ->]; simpl; unfold CreateReply_with_params;
      by rewrite Hlocals.
Qed.

Lemma too_long_path_is_replaced_witness :
  ((ServerMessage_from_payload U ZK TYPES_ZK watch_too_long_buf "c" "s" ∅).1 =
     inr (WatchEvent_init WatchEvent 2 3 "path-too-long" "c" "s") ∧
   WatchEvent_with_params_locals U watch_too_long_buf 20 =
     inr (2, 3, "path-too-long"%string, 28)) ∧
  ((ServerMessage_from_payload U ZK TYPES_ZK create_too_long_buf "c" "s" {[5 := 1]}).1 =
     inr (ServerMessage_init CreateReply NoAttrs 5 42 0 "path-too-long" "c" "s") ∧
   CreateReply_with_params_locals U 0 create_too_long_buf 20 =
     inr ("path-too-long"%string, 20)).
Proof.
  split.
  - destruct (too_long_path_is_replaced U ZK TYPES_ZK watch_too_long_buf "c" "s" ∅
                28 4 (-1) (-1) 0 20 WatchEvent) as [Hwatch _].
    + vm_compute. reflexivity.
    + lia.
    + vm_compute. reflexivity.
    + vm_compute. reflexivity.
    + apply (Hwatch eq_refl 2 3 28 (Raise StringTooLong "Length is 2000")).
      * vm_compute. reflexivity.
      * vm_compute. reflexivity.
      * reflexivity.
  - destruct (too_long_path_is_replaced U ZK TYPES_ZK create_too_long_buf "c" "s"
                {[5 := 1]} 20 4 5 42 0 20 CreateReply) as [_ Hcreate].
    + vm_compute. reflexivity.
    + lia.
    + vm_compute. reflexivity.
    + vm_compute. reflexivity.
    + apply (Hcreate (or_introl eq_refl) (Raise StringTooLong "Length is 2000")).
      * reflexivity.
      * vm_compute. reflexivity.
      * reflexivity.
Defined.

(** C7 as the claim words it fails: on a path that declares 2000 bytes
    the reader raises and returns no offset, and the offset the decoder
    holds after the path is the one it held before it (28 for the event,
    20 for the create reply), not one advanced over the field. *)
Lemma too_long_path_leaves_the_offset_in_place :
  read_int_int U watch_too_long_buf 20 = inr ((2, 3), 28) ∧
  read_string U watch_too_long_buf 28 = inl (Raise StringTooLong "Length is 2000") ∧
  WatchEvent_with_params_locals U watch_too_long_buf 20 =
    inr (2, 3, "path-too-long"%string, 28) ∧
  read_string U create_too_long_buf 20 = inl (Raise StringTooLong "Length is 2000") ∧
  CreateReply_with_params_locals U 0 create_too_long_buf 20 =
    inr ("path-too-long"%string, 20).
Proof. split_and!; vm_compute; reflexivity. Qed.

(** ** Building the registry *)

(** The opcodes a run of class statements carries, in order. *)
Lemma declared_opcodes_cons (obj : cls) (opcode : option Z)
    (decls : list (cls * option Z)) :
  omap snd ((obj, opcode) :: decls) =
    match opcode with
    | Some op => op :: omap snd decls
    | None => omap snd decls
    end.
Proof. by destruct opcode. Qed.

(** A run of class statements goes through exactly when the opcodes it
    carries are pairwise different and none is a key of the registry it
    starts from. *)
Lemma declare_classes_inr_iff (decls : list (cls * option Z))
    (TYPES : gmap (option Z) cls) :
  TYPES !! None = None →
  (∃ TYPES', declare_classes decls TYPES = inr TYPES') ↔
  NoDup (omap snd decls) ∧ ∀ op, op ∈ omap snd decls → TYPES !! Some op = None.
Proof.
  revert TYPES. induction decls as [|[obj opcode] decls IH]; intros TYPES HNone.
  - simpl. split; [|by eauto].
    intros _. split; [constructor|]. intros op Hop. by apply elem_of_nil in Hop.
  - rewrite declared_opcodes_cons. simpl. destruct opcode as [op|].
    + destruct (TYPES !! Some op) as [c|] eqn:Hop.
      * rewrite ServerMessageType_new_taken by (rewrite Hop; eauto). simpl. split.
        -- by intros [? ?].
        -- intros [_ Hfree]. specialize (Hfree op). rewrite Hop in Hfree.
           by specialize (Hfree ltac:(left)).
      * rewrite ServerMessageType_new_free by done. simpl.
        rewrite IH by (by rewrite lookup_insert_ne).
        rewrite NoDup_cons. split.
        -- intros [Hnd Hfree]. split_and!; [|done|].
           ++ intros Hin. apply Hfree in Hin. by rewrite lookup_insert_eq in Hin.
           ++ intros op' [->|Hin]%elem_of_cons; [done|].
              apply Hfree in Hin. by apply lookup_insert_None in Hin as [? _].
        -- intros [[Hnotin Hnd] Hfree]. split; [done|]. intros op' Hin.
           apply lookup_insert_None. split; [apply Hfree; by right|].
           intros [= ->]. done.
    + rewrite ServerMessageType_new_free by done. simpl. by apply IH.
Qed.

(** Every class of the module is in the list of its class statements. *)
Lemma module_classes_all (c : cls) : c ∈ module_classes.
Proof. unfold module_classes. destruct c; set_solver. Qed.

Lemma module_declarations_elem (K : zookeeper) (c : cls) (key : option Z) :
  (c, key) ∈ module_declarations K ↔ OPCODE K c = key.
Proof.
  unfold module_declarations. rewrite list_elem_of_fmap. split.
  - by intros (c' & [= -> ->] & _).
  - intros <-. exists c. split; [done|apply module_classes_all].
Qed.

(** Once the module is imported, the registry holds a class under a key
    exactly when the key is the opcode the class declares. *)
Lemma import_module_lookup (K : zookeeper) (TYPES : gmap (option Z) cls)
    (key : option Z) (c : cls) :
  import_module K = inr TYPES →
  TYPES !! key = Some c ↔ OPCODE K c = key ∧ key ≠ None.
Proof.
  intros Himport. destruct key as [op|].
  - rewrite (declare_classes_lookup _ _ _ op c Himport), lookup_empty.
    rewrite module_declarations_elem. split; [intros [?|?]; [done|by split]|tauto].
  - rewrite (declare_classes_None _ _ _ Himport) by apply lookup_empty.
    split; [done|by intros [_ ?]].
Qed.

(** X1. Importing the module goes through exactly when the fourteen
    opcodes the reply classes declare are pairwise different; when it does
    not, the exception is the metaclass's [ValueError]. *)
Theorem import_module_succeeds_iff_opcodes_distinct (K : zookeeper) :
  ((∃ TYPES, import_module K = inr TYPES) ↔
   NoDup [ OpCodes_CONNECT K; OpCodes_PING K; OpCodes_SETAUTH K; OpCodes_GETDATA K;
           OpCodes_EXISTS K; OpCodes_SYNC K; OpCodes_SETDATA K; OpCodes_DELETE K;
           OpCodes_GETCHILDREN K; OpCodes_GETCHILDREN2 K; OpCodes_CREATE K;
           OpCodes_CREATE2 K; OpCodes_SETWATCHES K; OpCodes_MULTI K ]) ∧
  (∀ e, import_module K = inl e → exn_cls e = ValueError).
Proof.
  split.
  - unfold import_module. rewrite declare_classes_inr_iff by apply lookup_empty.
    change (omap snd (module_declarations K)) with
      [ OpCodes_CONNECT K; OpCodes_PING K; OpCodes_SETAUTH K; OpCodes_GETDATA K;
        OpCodes_EXISTS K; OpCodes_SYNC K; OpCodes_SETDATA K; OpCodes_DELETE K;
        OpCodes_GETCHILDREN K; OpCodes_GETCHILDREN2 K; OpCodes_CREATE K;
        OpCodes_CREATE2 K; OpCodes_SETWATCHES K; OpCodes_MULTI K ].
    split; [by intros [? _]|]. intros Hnd. split; [done|].
    intros op _. apply lookup_empty.
  - intros e. apply declare_classes_raises.
Qed.

Lemma import_module_succeeds_iff_opcodes_distinct_witness :
  ((∃ TYPES, import_module ZK = inr TYPES) ↔
   NoDup [ OpCodes_CONNECT ZK; OpCodes_PING ZK; OpCodes_SETAUTH ZK; OpCodes_GETDATA ZK;
           OpCodes_EXISTS ZK; OpCodes_SYNC ZK; OpCodes_SETDATA ZK; OpCodes_DELETE ZK;
           OpCodes_GETCHILDREN ZK; OpCodes_GETCHILDREN2 ZK; OpCodes_CREATE ZK;
           OpCodes_CREATE2 ZK; OpCodes_SETWATCHES ZK; OpCodes_MULTI ZK ]) ∧
  (∀ e, import_module ZK = inl e → exn_cls e = ValueError).
Proof. apply (import_module_succeeds_iff_opcodes_distinct ZK). Defined.

(** X2. Once the module is imported, the registry holds a class under a
    key exactly when the key is the opcode that class declares: [None] is
    not a key, the four classes without an opcode ([ClientMessageType],
    [ServerMessage], [WatchEvent], [Reply]) are not values, and
    [ServerMessageType.get] on the opcode of a reply class returns that
    class. *)
Theorem registry_holds_each_class_under_its_opcode (K : zookeeper)
    (TYPES : gmap (option Z) cls) :
  import_module K = inr TYPES →
  (∀ key c, TYPES !! key = Some c ↔ OPCODE K c = key ∧ key ≠ None) ∧
  ServerMessageType_get TYPES None = None ∧
  (∀ key c, ServerMessageType_get TYPES key = Some c →
     c ≠ ClientMessageType ∧ c ≠ ServerMessage ∧ c ≠ WatchEvent ∧ c ≠ Reply) ∧
  (∀ c op, OPCODE K c = Some op → ServerMessageType_get TYPES (Some op) = Some c).
Proof.
  intros Himport. unfold ServerMessageType_get. split_and!.
  - intros key c. by apply import_module_lookup.
  - eapply declare_classes_None; [done|apply lookup_empty].
  - intros key c [Hop Hkey]%(import_module_lookup K TYPES key c Himport).
    split_and!; intros ->; by simplify_eq/=.
  - intros c op Hop. by apply (import_module_lookup K TYPES (Some op) c Himport).
Qed.

Lemma registry_holds_each_class_under_its_opcode_witness :
  (∀ key c, TYPES_ZK !! key = Some c ↔ OPCODE ZK c = key ∧ key ≠ None) ∧
  ServerMessageType_get TYPES_ZK None = None ∧
  (∀ key c, ServerMessageType_get TYPES_ZK key = Some c →
     c ≠ ClientMessageType ∧ c ≠ ServerMessage ∧ c ≠ WatchEvent ∧ c ≠ Reply) ∧
  (∀ c op, OPCODE ZK c = Some op → ServerMessageType_get TYPES_ZK (Some op) = Some c).
Proof.
  apply (registry_holds_each_class_under_its_opcode ZK TYPES_ZK).
  vm_compute. reflexivity.
Defined.

(** ** The table across calls *)

(** The table a resolution leaves: the one it found for the two reserved
    transaction ids, the one it found without the id otherwise. *)
Lemma handler_for_table (K : zookeeper) (TYPES : gmap (option Z) cls)
    (x : Z) (requests_xids : gmap Z Z) :
  (ServerMessage_handler_for K TYPES x requests_xids).2 =
    if decide (x = WATCH_XID K ∨ x = PING_XID K) then requests_xids
    else delete x requests_xids.
Proof.
  unfold ServerMessage_handler_for. repeat case_decide; try done; tauto.
Qed.

(** The table a call leaves is the one it was given, or that one without
    a transaction id that is not reserved. *)
Lemma from_payload_table (R : Readers) (K : zookeeper) (TYPES : gmap (option Z) cls)
    (data : list byte) (cl sv : string) (requests_xids : gmap Z Z) :
  (ServerMessage_from_payload R K TYPES data cl sv requests_xids).2 = requests_xids ∨
  ∃ x, x ≠ WATCH_XID K ∧ x ≠ PING_XID K ∧
       (ServerMessage_from_payload R K TYPES data cl sv requests_xids).2 =
         delete x requests_xids.
Proof.
  unfold ServerMessage_from_payload.
  destruct (read_number R data 0) as [e|[reply_size o1]]; [by left|].
  case_decide; [by left|].
  destruct (read_reply_header R data o1) as [e|[[[x z] err] o2]]; [by left|].
  pose proof (handler_for_table K TYPES x requests_xids) as Htable.
  destruct (ServerMessage_handler_for K TYPES x requests_xids) as [[h|] remaining];
    simpl in *; subst remaining; case_decide; try (by left);
    right; exists x; split_and!; try done; tauto.
Qed.

(** X3. No call adds to [requests_xids] or changes an entry: the table a
    call leaves is the one it was given, or that one without a single
    transaction id, which is never one of the two reserved ids. *)
Theorem table_only_loses_one_request_xid (R : Readers) (K : zookeeper)
    (TYPES : gmap (option Z) cls)
    (data : list byte) (cl sv : string) (requests_xids : gmap Z Z) :
  (ServerMessage_from_payload R K TYPES data cl sv requests_xids).2 ⊆ requests_xids ∧
  ((ServerMessage_from_payload R K TYPES data cl sv requests_xids).2 = requests_xids ∨
   ∃ x, x ≠ WATCH_XID K ∧ x ≠ PING_XID K ∧
        (ServerMessage_from_payload R K TYPES data cl sv requests_xids).2 =
          delete x requests_xids) ∧
  (ServerMessage_from_payload R K TYPES data cl sv requests_xids).2 !! WATCH_XID K =
    requests_xids !! WATCH_XID K ∧
  (ServerMessage_from_payload R K TYPES data cl sv requests_xids).2 !! PING_XID K =
    requests_xids !! PING_XID K.
Proof.
  pose proof (from_payload_table R K TYPES data cl sv requests_xids) as Htable.
  split_and!; [|done| |];
    destruct Htable as [-> | (x & Hw & Hp & ->)]; try done.
  - apply delete_subseteq.
  - by apply lookup_delete_ne.
  - by apply lookup_delete_ne.
Qed.

(** X4. A reply whose transaction id is neither reserved nor in
    [requests_xids] raises [DeserializationError("No handler for
    xid=...")] and leaves the table exactly as it was given, under any
    registry the metaclass built. *)
Theorem unknown_xid_raises_and_keeps_the_table (R : Readers) (K : zookeeper)
    (decls : list (cls * option Z)) (TYPES : gmap (option Z) cls)
    (data : list byte) (cl sv : string) (requests_xids : gmap Z Z)
    (reply_size o1 x z err o2 : Z) :
  declare_classes decls ∅ = inr TYPES →
  read_number R data 0 = inr (reply_size, o1) → 0 < reply_size →
  read_reply_header R data o1 = inr ((x, z, err), o2) →
  x ≠ WATCH_XID K → x ≠ PING_XID K →
  requests_xids !! x = None →
  ServerMessage_from_payload R K TYPES data cl sv requests_xids =
    (inl (Raise DeserializationError ("No handler for xid=" +:+ string_of_Z x)),
     requests_xids).
Proof.
  intros Hreg Hn Hpos Hh Hw Hp Habsent.
  rewrite (from_payload_header R K _ _ _ _ _ _ _ _ _ _ _ Hn Hpos Hh).
  rewrite handler_for_request by done. rewrite Habsent.
  rewrite (declare_classes_None _ _ _ Hreg) by apply lookup_empty.
  by rewrite delete_id.
Qed.

Lemma unknown_xid_raises_and_keeps_the_table_witness :
  ServerMessage_from_payload U ZK TYPES_ZK create_reply_buf "c" "s" {[7 := 8]} =
    (inl (Raise DeserializationError ("No handler for xid=" +:+ string_of_Z 5)),
     {[7 := 8]}).
Proof.
  apply (unknown_xid_raises_and_keeps_the_table U ZK (module_declarations ZK) TYPES_ZK
           create_reply_buf "c" "s" {[7 := 8]} 24 4 5 42 0 20).
  - vm_compute. reflexivity.
  - vm_compute. reflexivity.
  - lia.
  - vm_compute. reflexivity.
  - simpl. lia.
  - simpl. lia.
  - vm_compute. reflexivity.
Defined.

(** X5. The two reserved transaction ids never reach the table or the
    registry. Under [WATCH_XID] the reply is decoded as a [WatchEvent];
    under [PING_XID] (when it is not also [WATCH_XID], which is tested
    first) it is a [PingReply] built from the header alone. In both cases
    the table is left as given, even when it has an entry under that
    id. *)
Theorem reserved_xids_bypass_the_table (R : Readers) (K : zookeeper)
    (TYPES : gmap (option Z) cls)
    (data : list byte) (cl sv : string) (requests_xids : gmap Z Z)
    (reply_size o1 x z err o2 : Z) :
  read_number R data 0 = inr (reply_size, o1) → 0 < reply_size →
  read_reply_header R data o1 = inr ((x, z, err), o2) →
  (x = WATCH_XID K →
   ServerMessage_from_payload R K TYPES data cl sv requests_xids =
     (WatchEvent_with_params R WatchEvent x z err data o2 cl sv, requests_xids)) ∧
  (x ≠ WATCH_XID K → x = PING_XID K →
   ServerMessage_from_payload R K TYPES data cl sv requests_xids =
     (inr (ServerMessage_init PingReply NoAttrs x z err "" cl sv), requests_xids)).
Proof.
  intros Hn Hpos Hh.
  rewrite (from_payload_header R K _ _ _ _ _ _ _ _ _ _ _ Hn Hpos Hh).
  unfold ServerMessage_handler_for. split.
  - intros Hw. by rewrite decide_True.
  - intros Hw Hp. rewrite decide_False by done. by rewrite decide_True.
Qed.

Lemma reserved_xids_bypass_the_table_witness :
  ServerMessage_from_payload U ZK TYPES_ZK watch_too_long_buf "c" "s" {[-1 := 1]} =
    (WatchEvent_with_params U WatchEvent (-1) (-1) 0 watch_too_long_buf 20 "c" "s",
     {[-1 := 1]}) ∧
  ServerMessage_from_payload U ZK TYPES_ZK ping_reply_buf "c" "s" {[-2 := 1]} =
    (inr (ServerMessage_init PingReply NoAttrs (-2) 42 0 "" "c" "s"), {[-2 := 1]}).
Proof.
  split.
  - destruct (reserved_xids_bypass_the_table U ZK TYPES_ZK watch_too_long_buf "c" "s"
                {[-1 := 1]} 28 4 (-1) (-1) 0 20) as [Hwatch _].
    + vm_compute. reflexivity.
    + lia.
    + vm_compute. reflexivity.
    + apply Hwatch. reflexivity.
  - destruct (reserved_xids_bypass_the_table U ZK TYPES_ZK ping_reply_buf "c" "s"
                {[-2 := 1]} 16 4 (-2) 42 0 20) as [_ Hping].
    + vm_compute. reflexivity.
    + lia.
    + vm_compute. reflexivity.
    + apply Hping; [simpl; lia|reflexivity].
Defined.

(** ** What a decoded message holds *)

(** The instance [with_params] returns: of the class it was called on,
    with the endpoints it was given, with the attributes of that class,
    and (but for [WatchEvent] and [ConnectReply]) with the transaction id,
    server transaction id and error code it was given. *)
Lemma with_params_inr (R : Readers) (handler : cls) (x z err : Z)
    (data : list byte) (offset : Z) (cl sv : string) (m : message) :
  with_params R handler x z err data offset cl sv = inr m →
  ∃ a x' z' err' p,
    m = ServerMessage_init handler a x' z' err' p cl sv ∧
    (handler ≠ WatchEvent → handler ≠ ConnectReply → x' = x ∧ z' = z ∧ err' = err) ∧
    (handler = WatchEvent → ∃ event_type state, a = WatchEventAttrs event_type state) ∧
    (handler = ConnectReply →
     err' = 0 ∧
     ∃ protocol timeout session passwd readonly,
       a = ConnectReplyAttrs protocol timeout session passwd readonly) ∧
    handler ≠ ClientMessageType.
Proof.
  destruct handler; simpl;
    unfold ServerMessage_with_params, WatchEvent_with_params, WatchEvent_with_params_locals,
      ConnectReply_with_params, GetChildrenReply_with_params, CreateReply_with_params,
      CreateReply_with_params_locals, MultiReply_with_params, try_except_StringTooLong;
    intros Hm; reads_in Hm;
    repeat match type of Hm with
           | context [if ?b then _ else _] => destruct b; simpl in Hm; reads_in Hm
           end;
    simplify_eq;
    unfold WatchEvent_init, ConnectReply_init, GetChildrenReply_init, MultiReply_init;
    (do 5 eexists); (split; [reflexivity|]); split_and!; try done; eauto 10.
Qed.

(** X6. Every decoded message has timestamp 0, the empty auth label and
    the two endpoints the call was given; unless it is a [WatchEvent] or a
    [ConnectReply], its transaction id, server transaction id and error
    code are those of the reply header. *)
Theorem decoded_message_carries_header_and_endpoints (R : Readers) (K : zookeeper)
    (TYPES : gmap (option Z) cls)
    (data : list byte) (cl sv : string) (requests_xids : gmap Z Z)
    (reply_size o1 x z err o2 : Z) (m : message) :
  read_number R data 0 = inr (reply_size, o1) →
  read_reply_header R data o1 = inr ((x, z, err), o2) →
  (ServerMessage_from_payload R K TYPES data cl sv requests_xids).1 = inr m →
  timestamp m = 0 ∧ auth m = "" ∧ client m = cl ∧ server m = sv ∧
  (__class__ m ≠ WatchEvent → __class__ m ≠ ConnectReply →
   xid m = x ∧ zxid m = z ∧ error m = err).
Proof.
  intros Hn Hh Hm.
  destruct (from_payload_inr R K _ _ _ _ _ _ Hm)
    as (reply_size' & o1' & x' & z' & err' & o2' & handler & Hn' & _ & Hh' & _ & Hwith).
  rewrite Hn in Hn'. simplify_eq. rewrite Hh in Hh'. simplify_eq.
  apply with_params_inr in Hwith as (a & x'' & z'' & err'' & p & -> & Hheader & _).
  simpl. split_and!; try done.
Qed.

Lemma decoded_message_carries_header_and_endpoints_witness :
  timestamp (ServerMessage_init CreateReply NoAttrs 5 42 0 "/foo" "c" "s") = 0 ∧
  auth (ServerMessage_init CreateReply NoAttrs 5 42 0 "/foo" "c" "s") = "" ∧
  client (ServerMessage_init CreateReply NoAttrs 5 42 0 "/foo" "c" "s") = "c" ∧
  server (ServerMessage_init CreateReply NoAttrs 5 42 0 "/foo" "c" "s") = "s" ∧
  (__class__ (ServerMessage_init CreateReply NoAttrs 5 42 0 "/foo" "c" "s") ≠ WatchEvent →
   __class__ (ServerMessage_init CreateReply NoAttrs 5 42 0 "/foo" "c" "s") ≠ ConnectReply →
   xid (ServerMessage_init CreateReply NoAttrs 5 42 0 "/foo" "c" "s") = 5 ∧
   zxid (ServerMessage_init CreateReply NoAttrs 5 42 0 "/foo" "c" "s") = 42 ∧
   error (ServerMessage_init CreateReply NoAttrs 5 42 0 "/foo" "c" "s") = 0).
Proof.
  apply (decoded_message_carries_header_and_endpoints U ZK TYPES_ZK create_reply_buf
           "c" "s" {[5 := 1]} 24 4 5 42 0 20).
  - vm_compute. reflexivity.
  - vm_compute. reflexivity.
  - vm_compute. reflexivity.
Defined.

(** X7. Reading [name] on a decoded message never raises. For a
    [WatchEvent] the label is the one [EVENT_TYPES] gives its event type;
    for a [ConnectReply] it is ["ConnectReply"] or ["SessionExpiration"]
    (never the ["Failed"] form); for every other class it is the class
    name, prefixed with ["Failed"] exactly when the error code is not 0. *)
Theorem name_of_a_decoded_message (R : Readers) (K : zookeeper)
    (TYPES : gmap (option Z) cls)
    (data : list byte) (cl sv : string) (requests_xids : gmap Z Z) (m : message) :
  (ServerMessage_from_payload R K TYPES data cl sv requests_xids).1 = inr m →
  ∃ label,
    name m = inr label ∧
    (__class__ m = WatchEvent →
     ∃ event_type, event_type_of m = Some event_type ∧ label = EVENT_TYPES event_type) ∧
    (__class__ m = ConnectReply → label = "ConnectReply" ∨ label = "SessionExpiration") ∧
    (__class__ m ≠ WatchEvent → __class__ m ≠ ConnectReply →
     label = (if decide (error m = 0) then "" else "Failed") +:+ cls_name (__class__ m)).
Proof.
  intros Hm.
  destruct (from_payload_inr R K _ _ _ _ _ _ Hm)
    as (reply_size & o1 & x & z & err & o2 & handler & _ & _ & _ & _ & Hwith).
  apply with_params_inr in Hwith
    as (a & x' & z' & err' & p & -> & _ & Hevent & Hconnect & Hclass).
  unfold name. simpl. destruct (decide (handler = WatchEvent)) as [->|Hne1].
  - destruct Hevent as (event_type & state & ->); [done|].
    exists (EVENT_TYPES event_type). split_and!; try done. intros _. by exists event_type.
  - destruct (decide (handler = ConnectReply)) as [->|Hne2].
    + destruct Hconnect as (-> & protocol & timeout & session & passwd & readonly & ->);
        [done|].
      unfold ConnectReply_name, ServerMessage_name. simpl.
      eexists. split; [reflexivity|]. split_and!; try done.
      intros _. case_decide; [by left|by right].
    + exists (ServerMessage_name (ServerMessage_init handler a x' z' err' p cl sv)).
      split_and!; try done. by destruct handler.
Qed.

Lemma name_of_a_decoded_message_witness :
  ∃ label,
    name (GetChildrenReply_init GetChildrenReply 7 42 (-101) 0 "c" "s") = inr label ∧
    label = "FailedGetChildrenReply".
Proof.
  destruct (name_of_a_decoded_message U ZK TYPES_ZK children_error_buf "c" "s" {[7 := 8]}
              (GetChildrenReply_init GetChildrenReply 7 42 (-101) 0 "c" "s"))
    as (label & Hname & _ & _ & Hlabel).
  - vm_compute. reflexivity.
  - exists label. split; [done|]. by rewrite Hlabel.
Defined.

(** X8. [EVENT_TYPES] tells the five known event types apart: a known
    type never gets the label of another type, and the label is
    ["UnknownWatchEvent"] exactly for the types that are not known. *)
Theorem watch_event_labels (event_type : Z) :
  (EVENT_TYPES event_type = "UnknownWatchEvent" ↔ event_type ∉ [-1; 1; 2; 3; 4]) ∧
  (∀ other, EVENT_TYPES event_type ≠ "UnknownWatchEvent" →
            EVENT_TYPES other = EVENT_TYPES event_type → other = event_type).
Proof.
  unfold EVENT_TYPES. split.
  - rewrite !not_elem_of_cons.
    repeat case_decide; subst; (split; [try done|]).
    + by intros [? _].
    + by intros (_ & ? & _).
    + by intros (_ & _ & ? & _).
    + by intros (_ & _ & _ & ? & _).
    + by intros (_ & _ & _ & _ & ? & _).
    + intros _. split_and!; try done. apply not_elem_of_nil.
    + done.
  - intros other. repeat case_decide; subst; try done.
Qed.

Lemma watch_event_labels_witness :
  (EVENT_TYPES 2 = "UnknownWatchEvent" ↔ 2 ∉ [-1; 1; 2; 3; 4]) ∧
  (∀ other, EVENT_TYPES 2 ≠ "UnknownWatchEvent" →
            EVENT_TYPES other = EVENT_TYPES 2 → other = 2).
Proof. apply (watch_event_labels 2). Defined.

(** ** Replies and the requests they answer *)

(** X9. Under the registry of the imported module, a message decoded under
    a transaction id that is not reserved is an instance of the class that
    declares the opcode recorded for that id: its [opcode] is the entry
    the table held. *)
Theorem decoded_reply_has_the_opcode_of_its_request (R : Readers) (K : zookeeper)
    (TYPES : gmap (option Z) cls)
    (data : list byte) (cl sv : string) (requests_xids : gmap Z Z)
    (reply_size o1 x z err o2 : Z) (m : message) :
  import_module K = inr TYPES →
  read_number R data 0 = inr (reply_size, o1) →
  read_reply_header R data o1 = inr ((x, z, err), o2) →
  x ≠ WATCH_XID K → x ≠ PING_XID K →
  (ServerMessage_from_payload R K TYPES data cl sv requests_xids).1 = inr m →
  is_Some (requests_xids !! x) ∧ opcode K m = requests_xids !! x.
Proof.
  intros Himport Hn Hh Hw Hp Hm.
  destruct (from_payload_inr R K _ _ _ _ _ _ Hm)
    as (reply_size' & o1' & x' & z' & err' & o2' & handler & Hn' & _ & Hh' & Hfor & Hwith).
  rewrite Hn in Hn'. simplify_eq. rewrite Hh in Hh'. simplify_eq.
  rewrite handler_for_request in Hfor by done. simpl in Hfor.
  apply (import_module_lookup K TYPES _ handler Himport) in Hfor as [Hop Hkey].
  apply with_params_class in Hwith. unfold opcode. rewrite Hwith, Hop.
  split; [|done]. by destruct (requests_xids !! x').
Qed.

Lemma decoded_reply_has_the_opcode_of_its_request_witness :
  is_Some (({[5 := 1]} : gmap Z Z) !! 5) ∧
  opcode ZK (ServerMessage_init CreateReply NoAttrs 5 42 0 "/foo" "c" "s") =
    ({[5 := 1]} : gmap Z Z) !! 5.
Proof.
  apply (decoded_reply_has_the_opcode_of_its_request U ZK TYPES_ZK create_reply_buf
           "c" "s" {[5 := 1]} 24 4 5 42 0 20).
  - vm_compute. reflexivity.
  - vm_compute. reflexivity.
  - vm_compute. reflexivity.
  - simpl. lia.
  - simpl. lia.
  - vm_compute. reflexivity.
Defined.

(** X10. Under the registry of the imported module, a decoded message is a
    [WatchEvent] exactly when the transaction id of the header is
    [WATCH_XID]; every other decoded message is of a class that declares
    an opcode. *)
Theorem watch_events_come_from_the_watch_xid (R : Readers) (K : zookeeper)
    (TYPES : gmap (option Z) cls)
    (data : list byte) (cl sv : string) (requests_xids : gmap Z Z)
    (reply_size o1 x z err o2 : Z) (m : message) :
  import_module K = inr TYPES →
  read_number R data 0 = inr (reply_size, o1) →
  read_reply_header R data o1 = inr ((x, z, err), o2) →
  (ServerMessage_from_payload R K TYPES data cl sv requests_xids).1 = inr m →
  (__class__ m = WatchEvent ↔ x = WATCH_XID K) ∧
  (x ≠ WATCH_XID K → is_Some (opcode K m)).
Proof.
  intros Himport Hn Hh Hm.
  destruct (from_payload_inr R K _ _ _ _ _ _ Hm)
    as (reply_size' & o1' & x' & z' & err' & o2' & handler & Hn' & _ & Hh' & Hfor & Hwith).
  rewrite Hn in Hn'. simplify_eq. rewrite Hh in Hh'. simplify_eq.
  apply with_params_class in Hwith. unfold opcode. rewrite Hwith. clear Hwith Hm.
  unfold ServerMessage_handler_for in Hfor.
  destruct (decide (x' = WATCH_XID K)) as [Hw|Hw].
  { simpl in Hfor. simplify_eq. by split. }
  destruct (decide (x' = PING_XID K)) as [Hp|Hp].
  { simpl in Hfor. simplify_eq. split; [by split|]. intros _. by eexists. }
  simpl in Hfor. unfold ServerMessageType_get in Hfor.
  apply (import_module_lookup K TYPES _ handler Himport) in Hfor as [Hop Hkey].
  assert (is_Some (OPCODE K handler)) as Hsome.
  { rewrite Hop. by destruct (requests_xids !! x'). }
  split; [|done]. split; [|done]. intros ->. by destruct Hsome.
Qed.

Lemma watch_events_come_from_the_watch_xid_witness :
  (__class__ (ServerMessage_init CreateReply NoAttrs 5 42 0 "/foo" "c" "s") = WatchEvent ↔
   5 = WATCH_XID ZK) ∧
  (5 ≠ WATCH_XID ZK →
   is_Some (opcode ZK (ServerMessage_init CreateReply NoAttrs 5 42 0 "/foo" "c" "s"))).
Proof.
  apply (watch_events_come_from_the_watch_xid U ZK TYPES_ZK create_reply_buf
           "c" "s" {[5 := 1]} 24 4 5 42 0 20).
  - vm_compute. reflexivity.
  - vm_compute. reflexivity.
  - vm_compute. reflexivity.
  - vm_compute. reflexivity.
Defined.

(** X11. Under the registry of the imported module, a reply to a ping,
    set-auth, get-data, exists, sync, set-data, delete or set-watches
    request is decoded from the header alone: whatever follows the header
    in the buffer, the call returns the instance of that class with the
    header's three values and the empty path, and takes the entry out of
    the table. *)
Theorem plain_replies_decode_from_the_header (R : Readers) (K : zookeeper)
    (TYPES : gmap (option Z) cls)
    (data : list byte) (cl sv : string) (requests_xids : gmap Z Z)
    (reply_size o1 x z err o2 op : Z) (c : cls) :
  import_module K = inr TYPES →
  read_number R data 0 = inr (reply_size, o1) → 0 < reply_size →
  read_reply_header R data o1 = inr ((x, z, err), o2) →
  x ≠ WATCH_XID K → x ≠ PING_XID K →
  requests_xids !! x = Some op →
  OPCODE K c = Some op →
  c ∈ [ PingReply; AuthReply; GetDataReply; ExistsReply; SyncReply; SetDataReply;
        DeleteReply; SetWatchesReply ] →
  ServerMessage_from_payload R K TYPES data cl sv requests_xids =
    (inr (ServerMessage_init c NoAttrs x z err "" cl sv), delete x requests_xids).
Proof.
  intros Himport Hn Hpos Hh Hw Hp Hx Hop Hc.
  rewrite (from_payload_header R K _ _ _ _ _ _ _ _ _ _ _ Hn Hpos Hh).
  rewrite handler_for_request by done. rewrite Hx.
  assert (TYPES !! Some op = Some c) as ->
    by by apply (import_module_lookup K TYPES (Some op) c Himport).
  repeat (apply elem_of_cons in Hc as [->|Hc]; [done|]).
  by apply elem_of_nil in Hc.
Qed.

Lemma plain_replies_decode_from_the_header_witness :
  ServerMessage_from_payload U ZK TYPES_ZK create_reply_buf "c" "s" {[5 := 4]} =
    (inr (ServerMessage_init GetDataReply NoAttrs 5 42 0 "" "c" "s"), delete 5 {[5 := 4]}).
Proof.
  apply (plain_replies_decode_from_the_header U ZK TYPES_ZK create_reply_buf "c" "s"
           {[5 := 4]} 24 4 5 42 0 20 4 GetDataReply).
  - vm_compute. reflexivity.
  - vm_compute. reflexivity.
  - lia.
  - vm_compute. reflexivity.
  - simpl. lia.
  - simpl. lia.
  - vm_compute. reflexivity.
  - reflexivity.
  - do 2 apply list_elem_of_further. apply list_elem_of_here.
Defined.

(** The table a call leaves, for a buffer whose length prefix and header
    can be read. *)
Lemma from_payload_table_header (R : Readers) (K : zookeeper)
    (TYPES : gmap (option Z) cls)
    (data : list byte) (cl sv : string) (requests_xids : gmap Z Z)
    (reply_size o1 x z err o2 : Z) :
  read_number R data 0 = inr (reply_size, o1) →
  read_reply_header R data o1 = inr ((x, z, err), o2) →
  (ServerMessage_from_payload R K TYPES data cl sv requests_xids).2 =
    if decide (reply_size ≤ 0 ∨ x = WATCH_XID K ∨ x = PING_XID K) then requests_xids
    else delete x requests_xids.
Proof.
  intros Hn Hh. unfold ServerMessage_from_payload. rewrite Hn.
  destruct (decide (reply_size ≤ 0)) as [Hsz|Hsz].
  { by rewrite decide_True by tauto. }
  rewrite Hh.
  pose proof (handler_for_table K TYPES x requests_xids) as Htable.
  destruct (ServerMessage_handler_for K TYPES x requests_xids) as [[h|] remaining];
    simpl in *; subst remaining; repeat case_decide; try done; tauto.
Qed.

(** X12. Two replies with different transaction ids can be decoded in
    either order: each call returns the same message or raises the same
    exception as it would on the table as first given, and the table left
    after both is the same. *)
Theorem replies_with_different_xids_commute (R : Readers) (K : zookeeper)
    (TYPES : gmap (option Z) cls)
    (data1 data2 : list byte) (cl1 sv1 cl2 sv2 : string) (requests_xids : gmap Z Z)
    (size1 o1 x1 z1 err1 p1 size2 o2 x2 z2 err2 p2 : Z) :
  read_number R data1 0 = inr (size1, o1) →
  read_reply_header R data1 o1 = inr ((x1, z1, err1), p1) →
  read_number R data2 0 = inr (size2, o2) →
  read_reply_header R data2 o2 = inr ((x2, z2, err2), p2) →
  x1 ≠ x2 →
  (ServerMessage_from_payload R K TYPES data2 cl2 sv2
     (ServerMessage_from_payload R K TYPES data1 cl1 sv1 requests_xids).2).1 =
    (ServerMessage_from_payload R K TYPES data2 cl2 sv2 requests_xids).1 ∧
  (ServerMessage_from_payload R K TYPES data1 cl1 sv1
     (ServerMessage_from_payload R K TYPES data2 cl2 sv2 requests_xids).2).1 =
    (ServerMessage_from_payload R K TYPES data1 cl1 sv1 requests_xids).1 ∧
  (ServerMessage_from_payload R K TYPES data2 cl2 sv2
     (ServerMessage_from_payload R K TYPES data1 cl1 sv1 requests_xids).2).2 =
    (ServerMessage_from_payload R K TYPES data1 cl1 sv1
       (ServerMessage_from_payload R K TYPES data2 cl2 sv2 requests_xids).2).2.
Proof.
  intros Hn1 Hh1 Hn2 Hh2 Hne.
  rewrite !(from_payload_table_header R K TYPES data1 _ _ _ _ _ _ _ _ _ Hn1 Hh1).
  rewrite !(from_payload_table_header R K TYPES data2 _ _ _ _ _ _ _ _ _ Hn2 Hh2).
  split_and!.
  - apply (from_payload_entry R K TYPES data2 _ _ _ _ _ _ _ _ _ _ Hn2 Hh2).
    case_decide; [done|]. by rewrite lookup_delete_ne.
  - apply (from_payload_entry R K TYPES data1 _ _ _ _ _ _ _ _ _ _ Hn1 Hh1).
    case_decide; [done|]. by rewrite lookup_delete_ne.
  - repeat case_decide; try done. apply delete_delete.
Qed.

Lemma replies_with_different_xids_commute_witness :
  (ServerMessage_from_payload U ZK TYPES_ZK children_error_buf "c" "s"
     (ServerMessage_from_payload U ZK TYPES_ZK create_reply_buf "c" "s"
        (<[5 := 1]> {[7 := 8]})).2).1 =
    (ServerMessage_from_payload U ZK TYPES_ZK children_error_buf "c" "s"
       (<[5 := 1]> {[7 := 8]})).1 ∧
  (ServerMessage_from_payload U ZK TYPES_ZK create_reply_buf "c" "s"
     (ServerMessage_from_payload U ZK TYPES_ZK children_error_buf "c" "s"
        (<[5 := 1]> {[7 := 8]})).2).1 =
    (ServerMessage_from_payload U ZK TYPES_ZK create_reply_buf "c" "s"
       (<[5 := 1]> {[7 := 8]})).1 ∧
  (ServerMessage_from_payload U ZK TYPES_ZK children_error_buf "c" "s"
     (ServerMessage_from_payload U ZK TYPES_ZK create_reply_buf "c" "s"
        (<[5 := 1]> {[7 := 8]})).2).2 =
    (ServerMessage_from_payload U ZK TYPES_ZK create_reply_buf "c" "s"
       (ServerMessage_from_payload U ZK TYPES_ZK children_error_buf "c" "s"
          (<[5 := 1]> {[7 := 8]})).2).2.
Proof.
  apply (replies_with_different_xids_commute U ZK TYPES_ZK create_reply_buf
           children_error_buf "c" "s" "c" "s" (<[5 := 1]> {[7 := 8]})
           24 4 5 42 0 20 20 4 7 42 (-101) 20).
  - vm_compute. reflexivity.
  - vm_compute. reflexivity.
  - vm_compute. reflexivity.
  - vm_compute. reflexivity.
  - lia.
Defined.

(** ** Exceptions of the string reader *)

(** X13. [StringTooLong] is the only exception of [read_string] the
    decoder absorbs: any exception of another class raised while the path
    of a [WatchEvent], or of a create reply with error code 0, is read,
    comes out of [with_params] unchanged. *)
Theorem other_read_string_errors_propagate (R : Readers) (c : cls) (x z err : Z)
    (data : list byte) (offset : Z) (cl sv : string) (e : exn) :
  exn_cls e ≠ StringTooLong →
  (∀ event_type state o,
     read_int_int R data offset = inr ((event_type, state), o) →
     read_string R data o = inl e →
     WatchEvent_with_params R c x z err data offset cl sv = inl e) ∧
  (err = 0 → read_string R data offset = inl e →
   CreateReply_with_params R c x z err data offset cl sv = inl e).
Proof.
  intros Hcls.
  assert (is_StringTooLong e = false) as Hnot.
  { unfold is_StringTooLong. by rewrite bool_decide_eq_false. }
  split.
  - intros event_type state o Hii Hs.
    unfold WatchEvent_with_params, WatchEvent_with_params_locals, try_except_StringTooLong.
    rewrite Hii. simpl. rewrite Hs. by rewrite Hnot.
  - intros -> Hs.
    unfold CreateReply_with_params, CreateReply_with_params_locals,
      try_except_StringTooLong.
    rewrite decide_True by done. rewrite Hs. by rewrite Hnot.
Qed.

Lemma other_read_string_errors_propagate_witness :
  CreateReply_with_params U CreateReply 5 42 0 create_truncated_buf 20 "c" "s" =
    inl (Raise DeserializationError "Couldn't read string").
Proof.
  destruct (other_read_string_errors_propagate U CreateReply 5 42 0 create_truncated_buf
              20 "c" "s" (Raise DeserializationError "Couldn't read string"))
    as [_ Hcreate].
  - simpl. discriminate.
  - apply Hcreate; [reflexivity|]. vm_compute. reflexivity.
Defined.

(** X14. An entry of [requests_xids] serves one reply. Once a reply with a
    transaction id that is not reserved has gone past its header, whether
    or not it was decoded, every later reply under the same id raises
    [DeserializationError("No handler for xid=...")] against the table
    left, and leaves that table as it is. *)
Theorem entry_serves_one_reply (R : Readers) (K : zookeeper)
    (decls : list (cls * option Z)) (TYPES : gmap (option Z) cls)
    (data1 data2 : list byte) (cl1 sv1 cl2 sv2 : string) (requests_xids : gmap Z Z)
    (size1 o1 z1 err1 p1 size2 o2 z2 err2 p2 x : Z) :
  declare_classes decls ∅ = inr TYPES →
  read_number R data1 0 = inr (size1, o1) → 0 < size1 →
  read_reply_header R data1 o1 = inr ((x, z1, err1), p1) →
  read_number R data2 0 = inr (size2, o2) → 0 < size2 →
  read_reply_header R data2 o2 = inr ((x, z2, err2), p2) →
  x ≠ WATCH_XID K → x ≠ PING_XID K →
  (ServerMessage_from_payload R K TYPES data1 cl1 sv1 requests_xids).2 =
    delete x requests_xids ∧
  ServerMessage_from_payload R K TYPES data2 cl2 sv2
    (ServerMessage_from_payload R K TYPES data1 cl1 sv1 requests_xids).2 =
    (inl (Raise DeserializationError ("No handler for xid=" +:+ string_of_Z x)),
     delete x requests_xids).
Proof.
  intros Hreg Hn1 Hpos1 Hh1 Hn2 Hpos2 Hh2 Hw Hp.
  assert ((ServerMessage_from_payload R K TYPES data1 cl1 sv1 requests_xids).2 =
            delete x requests_xids) as ->.
  { rewrite (from_payload_table_header R K TYPES data1 _ _ _ _ _ _ _ _ _ Hn1 Hh1).
    apply decide_False. intros [?|[?|?]]; [lia|done|done]. }
  split; [done|].
  rewrite (from_payload_header R K _ _ _ _ _ _ _ _ _ _ _ Hn2 Hpos2 Hh2).
  rewrite handler_for_request by done. rewrite lookup_delete_eq.
  rewrite (declare_classes_None _ _ _ Hreg) by apply lookup_empty.
  by rewrite delete_delete_eq.
Qed.

Lemma entry_serves_one_reply_witness :
  (ServerMessage_from_payload U ZK TYPES_ZK create_truncated_buf "c" "s" {[5 := 1]}).2 =
    delete 5 {[5 := 1]} ∧
  ServerMessage_from_payload U ZK TYPES_ZK create_reply_buf "c" "s"
    (ServerMessage_from_payload U ZK TYPES_ZK create_truncated_buf "c" "s" {[5 := 1]}).2 =
    (inl (Raise DeserializationError ("No handler for xid=" +:+ string_of_Z 5)),
     delete 5 {[5 := 1]}).
Proof.
  apply (entry_serves_one_reply U ZK (module_declarations ZK) TYPES_ZK
           create_truncated_buf create_reply_buf "c" "s" "c" "s" {[5 := 1]}
           22 4 42 0 20 24 4 42 0 20 5).
  - vm_compute. reflexivity.
  - vm_compute. reflexivity.
  - lia.
  - vm_compute. reflexivity.
  - vm_compute. reflexivity.
  - lia.
  - vm_compute. reflexivity.
  - simpl. lia.
  - simpl. lia.
Defined.
